(** * botofication.athena.connector: the AthenaConnector class

    A shallow embedding of [src/botofication/athena/connector.py] and the
    properties of its query-execution path: argument checking at
    construction, the string-typed setters, the submit / poll / fetch
    protocol of [status_query] and the row flattening of [process_data]. *)

From Stdlib Require Import ZArith List String Ascii Bool Lia DecimalString.
Import ListNotations.
Set Warnings "-register-all".
Local Open Scope list_scope.
Local Open Scope string_scope.

(** ** Python values

    The fragment of Python's object universe that reaches the connector:
    [None], booleans, integers, strings, lists, tuples and dictionaries with
    string keys (what a decoded JSON response of the service is made of).  A
    dictionary is an association list in insertion order; lookup takes the
    first binding of a key. *)

Inductive pyval : Type :=
| PNone
| PBool (b : bool)
| PInt (z : Z)
| PStr (s : string)
| PList (items : list pyval)
| PTuple (items : list pyval)
| PDict (entries : list (string * pyval)).

(** [isinstance(v, str)] and [isinstance(v, dict)]. *)
Definition isinstance_str (v : pyval) : bool :=
  match v with PStr _ => true | _ => false end.

Definition isinstance_dict (v : pyval) : bool :=
  match v with PDict _ => true | _ => false end.

(** Truth value of an object, as [if v], [not v], [a or b] test it. *)
Definition truthy (v : pyval) : bool :=
  match v with
  | PNone => false
  | PBool b => b
  | PInt z => negb (z =? 0)%Z
  | PStr s => negb (s =? "")
  | PList l | PTuple l => match l with [] => false | _ => true end
  | PDict d => match d with [] => false | _ => true end
  end.

(** [type(v).__name__], used by the interpreter's own error messages. *)
Definition type_name (v : pyval) : string :=
  match v with
  | PNone => "NoneType"
  | PBool _ => "bool"
  | PInt _ => "int"
  | PStr _ => "str"
  | PList _ => "list"
  | PTuple _ => "tuple"
  | PDict _ => "dict"
  end.

(** *** Text

    [needle in haystack] on strings, and [str()] / [repr()] as the f-strings
    of the source apply them. *)

Fixpoint str_in (needle haystack : string) : bool :=
  String.prefix needle haystack
  || match haystack with
     | EmptyString => false
     | String _ rest => str_in needle rest
     end.

Fixpoint has_char (c : ascii) (s : string) : bool :=
  match s with
  | EmptyString => false
  | String a rest => Ascii.eqb a c || has_char c rest
  end.

Definition hex_digit (n : nat) : ascii :=
  ascii_of_nat (if (n <? 10)%nat then 48 + n else 87 + n)%nat.

Definition double_quote : ascii := ascii_of_nat 34.
Definition single_quote : ascii := ascii_of_nat 39.
Definition backslash : ascii := ascii_of_nat 92.

Definition escaped (s : string) : string := String backslash s.

Definition repr_char (quote : ascii) (c : ascii) : string :=
  let n := nat_of_ascii c in
  if Ascii.eqb c quote || Ascii.eqb c backslash
  then escaped (String c EmptyString)
  else if (n =? 9)%nat then escaped "t"
  else if (n =? 10)%nat then escaped "n"
  else if (n =? 13)%nat then escaped "r"
  else if ((n <? 32) || (n =? 127))%nat
  then escaped (String "x"%char
         (String (hex_digit (n / 16)) (String (hex_digit (n mod 16)) EmptyString)))
  else String c EmptyString.

Fixpoint repr_chars (quote : ascii) (s : string) : string :=
  match s with
  | EmptyString => EmptyString
  | String c rest => repr_char quote c ++ repr_chars quote rest
  end.

(** [repr] of a string: single quotes, unless the text holds a single quote
    and no double quote. *)
Definition repr_str (s : string) : string :=
  let quote :=
    if has_char single_quote s && negb (has_char double_quote s)
    then double_quote else single_quote in
  String quote (repr_chars quote s ++ String quote EmptyString).

Fixpoint join (sep : string) (parts : list string) : string :=
  match parts with
  | [] => ""
  | [p] => p
  | p :: rest => p ++ sep ++ join sep rest
  end.

Fixpoint py_repr (v : pyval) : string :=
  match v with
  | PNone => "None"
  | PBool b => if b then "True" else "False"
  | PInt z => NilZero.string_of_int (Z.to_int z)
  | PStr s => repr_str s
  | PList l => "[" ++ join ", " (map py_repr l) ++ "]"
  | PTuple l =>
      match l with
      | [x] => "(" ++ py_repr x ++ ",)"
      | _ => "(" ++ join ", " (map py_repr l) ++ ")"
      end
  | PDict d =>
      "{" ++ join ", " (map (fun kv => repr_str (fst kv) ++ ": " ++ py_repr (snd kv)) d)
          ++ "}"
  end.

(** [str(v)], what [f"{v}"] interpolates. *)
Definition py_str (v : pyval) : string :=
  match v with
  | PStr s => s
  | _ => py_repr v
  end.

(** ** Exceptions *)

Inductive exc_class : Type :=
| ClientError
| ParamValidationError
| EndpointConnectionError
| NoCredentialsError
| PartialCredentialsError
| NoRegionError
| TypeError
| ValueError
| KeyError
| AttributeError
| Exception
| KeyboardInterrupt.

(** An exception object: its class, what [str(e)] gives, and [__context__],
    the exception that was being handled when this one was raised. *)
Inductive pyexc : Type :=
| PyExc (cls : exc_class) (text : string) (context : option pyexc).

Definition exc_cls (e : pyexc) : exc_class := let 'PyExc c _ _ := e in c.
Definition exc_text (e : pyexc) : string := let 'PyExc _ t _ := e in t.
Definition exc_context (e : pyexc) : option pyexc := let 'PyExc _ _ c := e in c.

Definition exc_class_eqb (a b : exc_class) : bool :=
  match a, b with
  | ClientError, ClientError
  | ParamValidationError, ParamValidationError
  | EndpointConnectionError, EndpointConnectionError
  | NoCredentialsError, NoCredentialsError
  | PartialCredentialsError, PartialCredentialsError
  | NoRegionError, NoRegionError
  | TypeError, TypeError
  | ValueError, ValueError
  | KeyError, KeyError
  | AttributeError, AttributeError
  | Exception, Exception
  | KeyboardInterrupt, KeyboardInterrupt => true
  | _, _ => false
  end.

(** [issubclass(c, d)]: every class here derives from [Exception], except
    [KeyboardInterrupt], which derives from [BaseException] alone. *)
Definition issubclass (c d : exc_class) : bool :=
  exc_class_eqb c d
  || match d, c with
     | Exception, KeyboardInterrupt => false
     | Exception, _ => true
     | _, _ => false
     end.

(** The classes botocore raises for network, credential, region, parameter
    and service failures. *)
Definition transport_class (c : exc_class) : bool :=
  match c with
  | ClientError | ParamValidationError | EndpointConnectionError
  | NoCredentialsError | PartialCredentialsError | NoRegionError => true
  | _ => false
  end.

(** The result of running a piece of Python: a value, or a raised exception. *)
Inductive outcome (A : Type) : Type :=
| Return (a : A)
| Raise (e : pyexc).
Arguments Return {A} a.
Arguments Raise {A} e.

Definition obind {A B} (m : outcome A) (k : A -> outcome B) : outcome B :=
  match m with
  | Return a => k a
  | Raise e => Raise e
  end.

Declare Scope py_scope.
Delimit Scope py_scope with py.
Notation "x <- m ;; k" := (obind m (fun x => k))
  (at level 100, m at next level, right associativity) : py_scope.

(** *** Subscripts, lookups and iteration *)

Fixpoint assoc (key : string) (d : list (string * pyval)) : option pyval :=
  match d with
  | [] => None
  | (k, v) :: rest => if k =? key then Some v else assoc key rest
  end.

(** [d.get(key, default)] on a dictionary. *)
Definition dict_get (d : list (string * pyval)) (key : string) (default : pyval)
  : pyval :=
  match assoc key d with
  | Some v => v
  | None => default
  end.

(** [v[key]] with a string key. *)
Definition getitem (v : pyval) (key : string) : outcome pyval :=
  match v with
  | PDict d =>
      match assoc key d with
      | Some x => Return x
      | None => Raise (PyExc KeyError (repr_str key) None)
      end
  | PStr _ => Raise (PyExc TypeError "string indices must be integers, not 'str'" None)
  | PList _ =>
      Raise (PyExc TypeError "list indices must be integers or slices, not str" None)
  | PTuple _ =>
      Raise (PyExc TypeError "tuple indices must be integers or slices, not str" None)
  | _ =>
      Raise (PyExc TypeError ("'" ++ type_name v ++ "' object is not subscriptable") None)
  end.

Fixpoint chars (s : string) : list pyval :=
  match s with
  | EmptyString => []
  | String c rest => PStr (String c EmptyString) :: chars rest
  end.

(** The items a [for] loop or a comprehension draws from [v]. *)
Definition iterate (v : pyval) : outcome (list pyval) :=
  match v with
  | PList l | PTuple l => Return l
  | PStr s => Return (chars s)
  | PDict d => Return (map (fun kv => PStr (fst kv)) d)
  | _ => Raise (PyExc TypeError ("'" ++ type_name v ++ "' object is not iterable") None)
  end.

(** [v.get(key, default)]: only dictionaries have the method. *)
Definition method_get (v : pyval) (key : string) (default : pyval) : outcome pyval :=
  match v with
  | PDict d => Return (dict_get d key default)
  | _ =>
      Raise (PyExc AttributeError
               ("'" ++ type_name v ++ "' object has no attribute 'get'") None)
  end.

(** ** [process_data], the flattening of the fetched rows *)

(** The comprehension
    [[each_dict.get("VarCharValue", None) for each_dict in dict_data]]. *)
Fixpoint cell_values (dict_data : list pyval) : outcome (list pyval) :=
  match dict_data with
  | [] => Return []
  | each_dict :: rest =>
      (v <- method_get each_dict "VarCharValue" PNone ;;
       vs <- cell_values rest ;;
       Return (v :: vs))%py
  end.

(** The body of [for d in data], with the accumulator [new_data]. *)
Fixpoint process_rows (data : list pyval) (new_data : list (list pyval))
  : outcome (list (list pyval)) :=
  match data with
  | [] => Return new_data
  | d :: rest =>
      match d with
      | PDict entries =>
          let dict_data := dict_get entries "Data" (PList []) in
          (cells <- iterate dict_data ;;
           values <- cell_values cells ;;
           if (1 <? List.length values)%nat
           then process_rows rest (new_data ++ [values])%list
           else process_rows rest new_data)%py
      | _ => process_rows rest new_data
      end
  end.

Definition process_data (data : pyval) : outcome (list (list pyval)) :=
  (rows <- iterate data ;; process_rows rows [])%py.

(** ** The service client and the effects of a run

    [boto3.client("athena", ...)] is the connection to the query service.
    A status answer may change from one poll to the next, so
    [get_query_execution] is indexed by the number of status calls already
    made in the run.  Every call either returns the decoded response or
    raises. *)

Record client : Type := {
  start_query_execution :
    forall (QueryString Database : pyval) (OutputLocation : string), outcome pyval;
  get_query_execution : forall (earlier_polls : nat) (QueryExecutionId : pyval), outcome pyval;
  get_query_results : forall (QueryExecutionId : pyval), outcome pyval;
  list_named_queries : forall (WorkGroup : pyval), outcome pyval
}.

(** What a run does to the outside world, in order: the remote calls,
    [time.sleep], and the debugging print [ic(text)]. *)
Inductive event : Type :=
| StartQueryExecution (QueryString Database : pyval) (OutputLocation : string)
| GetQueryExecution (QueryExecutionId : pyval)
| GetQueryResults (QueryExecutionId : pyval)
| ListNamedQueries (WorkGroup : pyval)
| Sleep (seconds : Z)
| Ic (text : string).

Definition trace : Type := list event.

Definition is_poll (e : event) : bool :=
  match e with GetQueryExecution _ => true | _ => false end.

Definition is_fetch (e : event) : bool :=
  match e with GetQueryResults _ => true | _ => false end.

Definition polls (tr : trace) : nat := List.length (filter is_poll tr).
Definition fetches (tr : trace) : nat := List.length (filter is_fetch tr).

(** A computation threads the trace, and returns a value or raises; [None]
    stands for a loop that is still running when the step budget is spent. *)
Definition M (A : Type) : Type := trace -> option (outcome A * trace).

Definition ret {A} (a : A) : M A := fun tr => Some (Return a, tr).

Definition raise {A} (e : pyexc) : M A := fun tr => Some (Raise e, tr).

Definition lift {A} (o : outcome A) : M A := fun tr => Some (o, tr).

Definition bind {A B} (m : M A) (k : A -> M B) : M B :=
  fun tr =>
    match m tr with
    | Some (Return a, tr') => k a tr'
    | Some (Raise e, tr') => Some (Raise e, tr')
    | None => None
    end.

Declare Scope run_scope.
Delimit Scope run_scope with run.
Notation "x <- m ;; k" := (bind m (fun x => k))
  (at level 100, m at next level, right associativity) : run_scope.
Notation "m ;; k" := (bind m (fun _ => k))
  (at level 100, right associativity) : run_scope.

Definition call_start_query_execution (c : client) (q db : pyval) (loc : string)
  : M pyval :=
  fun tr => Some (start_query_execution c q db loc,
                  (tr ++ [StartQueryExecution q db loc])%list).

Definition call_get_query_execution (c : client) (qid : pyval) : M pyval :=
  fun tr => Some (get_query_execution c (polls tr) qid,
                  (tr ++ [GetQueryExecution qid])%list).

Definition call_get_query_results (c : client) (qid : pyval) : M pyval :=
  fun tr => Some (get_query_results c qid, (tr ++ [GetQueryResults qid])%list).

Definition call_list_named_queries (c : client) (wg : pyval) : M pyval :=
  fun tr => Some (list_named_queries c wg, (tr ++ [ListNamedQueries wg])%list).

Definition sleep (seconds : Z) : M unit :=
  fun tr => Some (Return tt, (tr ++ [Sleep seconds])%list).

Definition ic (text : string) : M unit :=
  fun tr => Some (Return tt, (tr ++ [Ic text])%list).

(** [try: body except classes as e: handler(e)]. *)
Definition try_except {A} (body : M A) (classes : list exc_class)
  (handler : pyexc -> M A) : M A :=
  fun tr =>
    match body tr with
    | Some (Raise e, tr') =>
        if existsb (issubclass (exc_cls e)) classes
        then handler e tr'
        else Some (Raise e, tr')
    | r => r
    end.

(** [while True: body], where the body either reaches [break] or falls
    through to the next round. *)
Inductive loop_step : Type := Break | Continue.

Fixpoint while_true (fuel : nat) (body : M loop_step) : M unit :=
  match fuel with
  | O => fun _ => None
  | S fuel' =>
      (step <- body ;;
       match step with
       | Break => ret tt
       | Continue => while_true fuel' body
       end)%run
  end.

(** ** The connector object *)

Record AthenaConnector : Type := {
  __args : list (string * pyval);
  __region : pyval;
  __database : pyval;
  __workgroup : pyval;
  __data_catalog : pyval;
  __output_bucket : pyval;
  __output_location : pyval;
  __aws_access_key_id : pyval;
  __aws_secret_access_key : pyval;
  __client : client
}.

(** The parameters of [__get_args] once the call is bound; an argument that
    was not passed holds its default, [None]. *)
Record arguments : Type := {
  arg_region : pyval;
  arg_database : pyval;
  arg_workgroup : pyval;
  arg_data_catalog : pyval;
  arg_output_bucket : pyval;
  arg_output_location : pyval;
  arg_aws_access_key_id : pyval;
  arg_aws_secret_access_key : pyval
}.

Definition expected_string (name : string) : string :=
  "`" ++ name ++ "` -> Expected String Or Bytes-Like Object".

(** [__check(k, v)]: [k] is the value, [v] the parameter's name. *)
Definition __check (k : pyval) (v : string) : outcome unit :=
  if (str_in "region" v || truthy k) && negb (isinstance_str k)
  then Raise (PyExc TypeError (expected_string v) None)
  else Return tt.

Definition __get_args (a : arguments) : outcome (list (string * pyval)) :=
  (_ <- __check (arg_region a) "region" ;;
   _ <- __check (arg_database a) "database" ;;
   _ <- __check (arg_workgroup a) "workgroup" ;;
   _ <- __check (arg_data_catalog a) "data_catalog" ;;
   _ <- __check (arg_output_bucket a) "output_bucket" ;;
   _ <- __check (arg_output_location a) "output_location" ;;
   _ <- __check (arg_aws_access_key_id a) "aws_access_key_id" ;;
   _ <- __check (arg_aws_secret_access_key a) "aws_secret_access_key" ;;
   Return [ ("region", arg_region a);
            ("database", arg_database a);
            ("workgroup", arg_workgroup a);
            ("data_catalog", arg_data_catalog a);
            ("output_bucket", arg_output_bucket a);
            ("output_location", arg_output_location a);
            ("aws_access_key_id", arg_aws_access_key_id a);
            ("aws_secret_access_key", arg_aws_secret_access_key a) ])%py.

(** [boto3.client(service, region_name=..., [aws_access_key_id=...,
    aws_secret_access_key=...])], the library call that builds the client. *)
Definition boto3_client : Type :=
  string -> pyval -> option (pyval * pyval) -> outcome client.

Definition __init__ (boto3 : boto3_client) (a : arguments) : outcome AthenaConnector :=
  (args <- __get_args a ;;
   let region := dict_get args "region" PNone in
   let database := dict_get args "database" PNone in
   let workgroup := dict_get args "workgroup" PNone in
   let data_catalog := dict_get args "data_catalog" PNone in
   let output_bucket := dict_get args "output_bucket" PNone in
   let output_location := dict_get args "output_location" PNone in
   let aws_access_key_id := dict_get args "aws_access_key_id" PNone in
   let aws_secret_access_key := dict_get args "aws_secret_access_key" PNone in
   c <- (if truthy aws_access_key_id && truthy aws_secret_access_key
         then boto3 "athena" region (Some (aws_access_key_id, aws_secret_access_key))
         else boto3 "athena" region None) ;;
   Return {| __args := args;
             __region := region;
             __database := database;
             __workgroup := workgroup;
             __data_catalog := data_catalog;
             __output_bucket := output_bucket;
             __output_location := output_location;
             __aws_access_key_id := aws_access_key_id;
             __aws_secret_access_key := aws_secret_access_key;
             __client := c |})%py.

(** *** Properties: getters *)

Definition region (self : AthenaConnector) : outcome pyval :=
  Return (__region self).

Definition database (self : AthenaConnector) : outcome pyval :=
  if negb (truthy (__database self))
  then Raise (PyExc ValueError "Database Name Not Provided!" None)
  else Return (__database self).

Definition output_bucket (self : AthenaConnector) : outcome pyval :=
  if negb (truthy (__output_bucket self))
  then Raise (PyExc ValueError "Output Bucket Not Provided!" None)
  else Return (__output_bucket self).

Definition output_location (self : AthenaConnector) : outcome pyval :=
  if negb (truthy (__output_location self))
  then Raise (PyExc ValueError "Output Location Not Provided!" None)
  else Return (__output_location self).

Definition workgroup (self : AthenaConnector) : outcome pyval :=
  if negb (truthy (__workgroup self))
  then Raise (PyExc ValueError "Workgroup Not Provided!" None)
  else Return (__workgroup self).

Definition data_catalog (self : AthenaConnector) : outcome pyval :=
  if negb (truthy (__data_catalog self))
  then Raise (PyExc ValueError "Data Catalog Not Provided!" None)
  else Return (__data_catalog self).

(** *** Properties: setters

    An assignment [self.database = v] runs the setter on the object; the
    result pairs what the statement does (returns or raises) with the object
    afterwards. *)

Definition assign_database (self : AthenaConnector) (v : pyval) : AthenaConnector :=
  {| __args := __args self; __region := __region self;
     __database := v;
     __workgroup := __workgroup self; __data_catalog := __data_catalog self;
     __output_bucket := __output_bucket self;
     __output_location := __output_location self;
     __aws_access_key_id := __aws_access_key_id self;
     __aws_secret_access_key := __aws_secret_access_key self;
     __client := __client self |}.

Definition assign_output_bucket (self : AthenaConnector) (v : pyval) : AthenaConnector :=
  {| __args := __args self; __region := __region self;
     __database := __database self;
     __workgroup := __workgroup self; __data_catalog := __data_catalog self;
     __output_bucket := v;
     __output_location := __output_location self;
     __aws_access_key_id := __aws_access_key_id self;
     __aws_secret_access_key := __aws_secret_access_key self;
     __client := __client self |}.

Definition assign_output_location (self : AthenaConnector) (v : pyval) : AthenaConnector :=
  {| __args := __args self; __region := __region self;
     __database := __database self;
     __workgroup := __workgroup self; __data_catalog := __data_catalog self;
     __output_bucket := __output_bucket self;
     __output_location := v;
     __aws_access_key_id := __aws_access_key_id self;
     __aws_secret_access_key := __aws_secret_access_key self;
     __client := __client self |}.

Definition assign_workgroup (self : AthenaConnector) (v : pyval) : AthenaConnector :=
  {| __args := __args self; __region := __region self;
     __database := __database self;
     __workgroup := v; __data_catalog := __data_catalog self;
     __output_bucket := __output_bucket self;
     __output_location := __output_location self;
     __aws_access_key_id := __aws_access_key_id self;
     __aws_secret_access_key := __aws_secret_access_key self;
     __client := __client self |}.

Definition assign_data_catalog (self : AthenaConnector) (v : pyval) : AthenaConnector :=
  {| __args := __args self; __region := __region self;
     __database := __database self;
     __workgroup := __workgroup self; __data_catalog := v;
     __output_bucket := __output_bucket self;
     __output_location := __output_location self;
     __aws_access_key_id := __aws_access_key_id self;
     __aws_secret_access_key := __aws_secret_access_key self;
     __client := __client self |}.

Definition set_database (database : pyval) (self : AthenaConnector)
  : outcome unit * AthenaConnector :=
  if negb (isinstance_str database)
  then (Raise (PyExc TypeError (expected_string "database") None), self)
  else (Return tt, assign_database self database).

Definition set_output_bucket (output_bucket : pyval) (self : AthenaConnector)
  : outcome unit * AthenaConnector :=
  if negb (isinstance_str output_bucket)
  then (Raise (PyExc TypeError (expected_string "output_bucket") None), self)
  else (Return tt, assign_output_bucket self output_bucket).

Definition set_output_location (output_location : pyval) (self : AthenaConnector)
  : outcome unit * AthenaConnector :=
  if negb (isinstance_str output_location)
  then (Raise (PyExc TypeError (expected_string "output_location") None), self)
  else (Return tt, assign_output_location self output_location).

Definition set_workgroup (workgroup : pyval) (self : AthenaConnector)
  : outcome unit * AthenaConnector :=
  if negb (isinstance_str workgroup)
  then (Raise (PyExc TypeError (expected_string "workgroup") None), self)
  else (Return tt, assign_workgroup self workgroup).

Definition set_data_catalog (data_catalog : pyval) (self : AthenaConnector)
  : outcome unit * AthenaConnector :=
  if negb (isinstance_str data_catalog)
  then (Raise (PyExc TypeError (expected_string "data_catalog") None), self)
  else (Return tt, assign_data_catalog self data_catalog).

(** The classes of the [except] clause that closes every remote operation. *)
Definition except_classes : list exc_class :=
  [ ClientError; ParamValidationError; EndpointConnectionError;
    NoCredentialsError; PartialCredentialsError; NoRegionError; Exception ].

(** ** [get_saved_queries_ids] *)

(** [a or b]. *)
Definition py_or (a b : pyval) : pyval := if truthy a then a else b.

Definition get_saved_queries_ids (self : AthenaConnector) (workgroup : pyval)
  : M pyval :=
  try_except
    (if truthy (py_or (__workgroup self) workgroup)
     then
       (saved_queries <- call_list_named_queries (__client self)
                           (py_or workgroup (__workgroup self)) ;;
        query_ids <- lift (getitem saved_queries "NamedQueryIds") ;;
        ret query_ids)%run
     else raise (PyExc ValueError "Workgroup Not Provided!" None))
    except_classes
    (fun e =>
       raise (PyExc Exception ("Error Getting Saved Queries: " ++ exc_text e) (Some e))).

(** ** [status_query]: submit, poll, fetch, flatten *)

Definition terminal_states : list string := ["SUCCEEDED"; "FAILED"; "CANCELLED"].

(** [state in [...]]: membership by [==]; only a string equals a string. *)
Definition state_in (state : pyval) (names : list string) : bool :=
  match state with
  | PStr s => existsb (String.eqb s) names
  | _ => false
  end.

(** [f"s3://{self.__output_bucket}/{self.__output_location}"]. *)
Definition staging_uri (self : AthenaConnector) : string :=
  "s3://" ++ py_str (__output_bucket self) ++ "/" ++ py_str (__output_location self).

(** [query_response["QueryExecution"]["Status"]["State"]]. *)
Definition response_state (query_response : pyval) : outcome pyval :=
  (qe <- getitem query_response "QueryExecution" ;;
   status <- getitem qe "Status" ;;
   getitem status "State")%py.

(** [f"Query execution completed with state: {state}"] and
    [f"Query execution is still in progress. Current state: {state}"]. *)
Definition completed_message (state : pyval) : string :=
  "Query execution completed with state: " ++ py_str state.

Definition progress_message (state : pyval) : string :=
  "Query execution is still in progress. Current state: " ++ py_str state.

(** One round of the [while True] loop. *)
Definition poll (c : client) (query_execution_id : pyval) : M loop_step :=
  (query_response <- call_get_query_execution c query_execution_id ;;
   state <- lift (response_state query_response) ;;
   if state_in state terminal_states
   then (ic (completed_message state) ;; ret Break)
   else (ic (progress_message state) ;; sleep 5 ;; ret Continue))%run.

(** [result_response["ResultSet"]["Rows"]]. *)
Definition response_rows (result_response : pyval) : outcome pyval :=
  (rs <- getitem result_response "ResultSet" ;; getitem rs "Rows")%py.

Definition wrap_query_error (e : pyexc) : pyexc :=
  PyExc Exception ("Error While Running Query: " ++ exc_text e) (Some e).

(** [fuel] is the number of rounds the model lets the loop run; the source
    sets no such limit, and a run that needs more rounds yields [None]. *)
Definition status_query (fuel : nat) (self : AthenaConnector) (query : pyval)
  : M (list (list pyval)) :=
  try_except
    (response <- call_start_query_execution (__client self) query
                   (__database self) (staging_uri self) ;;
     query_execution_id <- lift (getitem response "QueryExecutionId") ;;
     while_true fuel (poll (__client self) query_execution_id) ;;
     result_response <- call_get_query_results (__client self) query_execution_id ;;
     result_data <- lift (response_rows result_response) ;;
     output <- lift (process_data result_data) ;;
     ret output)%run
    except_classes
    (fun e => raise (wrap_query_error e)).

(** ** Vocabulary of the specification *)

(** *** Raw result rows

    A raw result row, as the service sends it, is a record whose ["Data"]
    entry (when present) is a list of cell records; a cell record may or may
    not hold a ["VarCharValue"]. *)

Definition raw_row (d : pyval) : bool :=
  match d with
  | PDict entries =>
      match dict_get entries "Data" (PList []) with
      | PList cells => forallb isinstance_dict cells
      | _ => false
      end
  | _ => false
  end.

(** The nullable string value of a cell: its value field, null when the field
    is missing. *)
Definition value_of_cell (cell : pyval) : pyval :=
  match cell with
  | PDict entries => dict_get entries "VarCharValue" PNone
  | _ => PNone
  end.

(** The extracted cell sequence of a row (absent: the empty sequence). *)
Definition cells_of_row (d : pyval) : list pyval :=
  match d with
  | PDict entries =>
      match dict_get entries "Data" (PList []) with
      | PList cells => map value_of_cell cells
      | _ => []
      end
  | _ => []
  end.

Definition more_than_one_cell (cells : list pyval) : bool :=
  (1 <? List.length cells)%nat.

(** The normalized table the specification asks for. *)
Definition normalized_table (rows : list pyval) : list (list pyval) :=
  filter more_than_one_cell (map cells_of_row rows).

(** Encoders for tests: a cell with a value, a cell without, a row. *)
Definition cell (value : option string) : pyval :=
  match value with
  | Some s => PDict [("VarCharValue", PStr s)]
  | None => PDict []
  end.

Definition row (cells : list pyval) : pyval := PDict [("Data", PList cells)].

Definition text_row (cells : list string) : pyval :=
  row (map (fun s => cell (Some s)) cells).

(** *** Runs of the protocol *)

(** The state the [k]-th status call lets the loop see. *)
Definition observed (c : client) (query_execution_id : pyval) (k : nat) : outcome pyval :=
  (query_response <- get_query_execution c k query_execution_id ;;
   response_state query_response)%py.

Definition still_running (c : client) (qid : pyval) (k : nat) : Prop :=
  exists state, observed c qid k = Return state
                /\ state_in state terminal_states = false.

Definition reaches_terminal (c : client) (qid : pyval) (k : nat) : Prop :=
  exists state, observed c qid k = Return state
                /\ state_in state terminal_states = true.

(** The handle a submission yields. *)
Definition submitted (self : AthenaConnector) (query : pyval) : outcome pyval :=
  (response <- start_query_execution (__client self) query
                 (__database self) (staging_uri self) ;;
   getitem response "QueryExecutionId")%py.

Definition submission (self : AthenaConnector) (query : pyval) : event :=
  StartQueryExecution query (__database self) (staging_uri self).

(** The state printed at round [k] (what the [k]-th status call showed). *)
Definition seen (c : client) (qid : pyval) (k : nat) : pyval :=
  match observed c qid k with
  | Return state => state
  | Raise _ => PNone
  end.

(** [n] rounds of polling, from round [from] on, that each found the query
    unfinished: status call, progress print, sleep. *)
Fixpoint waiting (c : client) (qid : pyval) (from n : nat) : trace :=
  match n with
  | O => []
  | S n' =>
      GetQueryExecution qid :: Ic (progress_message (seen c qid from)) :: Sleep 5
        :: waiting c qid (S from) n'
  end.

(** How the last status call of a loop closes the trace: a terminal state is
    printed; an exception leaves nothing more. *)
Definition closing (c : client) (qid : pyval) (k : nat) (res : outcome unit) : trace :=
  match res with
  | Return _ => [GetQueryExecution qid; Ic (completed_message (seen c qid k))]
  | Raise _ => [GetQueryExecution qid]
  end.

(** The trace of a run whose [k]-th status call is the first to see a
    terminal state. *)
Definition completed_run (self : AthenaConnector) (query qid : pyval) (k : nat) : trace :=
  (submission self query
     :: waiting (__client self) qid 0 k
     ++ [ GetQueryExecution qid;
          Ic (completed_message (seen (__client self) qid k));
          GetQueryResults qid ])%list.

(** The trace of a run whose [k]-th status call raises. *)
Definition interrupted_run (self : AthenaConnector) (query qid : pyval) (k : nat) : trace :=
  (submission self query
     :: waiting (__client self) qid 0 k ++ [GetQueryExecution qid])%list.

Definition sleeps_of (tr : trace) : list Z :=
  flat_map (fun e => match e with Sleep s => [s] | _ => [] end) tr.

(** What the [except] clause makes of an exception raised in the [try] body. *)
Definition caught (e : pyexc) : bool :=
  existsb (issubclass (exc_cls e)) except_classes.

Definition surfaced {A} (e : pyexc) : outcome A :=
  if caught e then Raise (wrap_query_error e) else Raise e.

Definition guarded {A} (o : outcome A) : outcome A :=
  match o with
  | Return a => Return a
  | Raise e => surfaced e
  end.

(** The statements after the loop: fetch, take the rows, flatten. *)
Definition fetched (c : client) (qid : pyval) : outcome (list (list pyval)) :=
  (result_response <- get_query_results c qid ;;
   result_data <- response_rows result_response ;;
   process_data result_data)%py.

(** *** Test doubles *)

Definition status_response (state : string) : pyval :=
  PDict [("QueryExecution", PDict [("Status", PDict [("State", PStr state)])])].

Definition rows_response (rows : list pyval) : pyval :=
  PDict [("ResultSet", PDict [("Rows", PList rows)])].

(** A service that hands out the handle ["h1"], reports [states] one per
    status call (and [last] from then on), and serves [rows]. *)
Definition scripted (states : list string) (last : string) (rows : list pyval) : client :=
  {| start_query_execution := fun _ _ _ => Return (PDict [("QueryExecutionId", PStr "h1")]);
     get_query_execution := fun k _ => Return (status_response (nth k states last));
     get_query_results := fun _ => Return (rows_response rows);
     list_named_queries := fun _ => Return (PDict [("NamedQueryIds", PList [])]) |}.

Definition only_region (r : string) : arguments :=
  {| arg_region := PStr r; arg_database := PNone; arg_workgroup := PNone;
     arg_data_catalog := PNone; arg_output_bucket := PNone;
     arg_output_location := PNone; arg_aws_access_key_id := PNone;
     arg_aws_secret_access_key := PNone |}.

Definition connector (c : client) : AthenaConnector :=
  {| __args := [];
     __region := PStr "us-west-1";
     __database := PStr "testing";
     __workgroup := PStr "primary";
     __data_catalog := PStr "AwsDataCatalog";
     __output_bucket := PStr "bhupenderhere";
     __output_location := PStr "athena_query_results/";
     __aws_access_key_id := PNone;
     __aws_secret_access_key := PNone;
     __client := c |}.

Definition region_and_database (r db : string) : arguments :=
  {| arg_region := PStr r; arg_database := PStr db; arg_workgroup := PNone;
     arg_data_catalog := PNone; arg_output_bucket := PNone;
     arg_output_location := PNone; arg_aws_access_key_id := PNone;
     arg_aws_secret_access_key := PNone |}.

(** A service whose status call fails at round [k] and reports RUNNING
    before; one whose fetch fails; one whose submission fails. *)
Definition failing_poll (k : nat) (e : pyexc) : client :=
  {| start_query_execution := fun _ _ _ => Return (PDict [("QueryExecutionId", PStr "h1")]);
     get_query_execution :=
       fun i _ => if (i <? k)%nat then Return (status_response "RUNNING") else Raise e;
     get_query_results := fun _ => Return (rows_response []);
     list_named_queries := fun _ => Return (PDict [("NamedQueryIds", PList [])]) |}.

Definition failing_fetch (e : pyexc) : client :=
  {| start_query_execution := fun _ _ _ => Return (PDict [("QueryExecutionId", PStr "h1")]);
     get_query_execution := fun _ _ => Return (status_response "SUCCEEDED");
     get_query_results := fun _ => Raise e;
     list_named_queries := fun _ => Return (PDict [("NamedQueryIds", PList [])]) |}.

Definition failing_start (e : pyexc) : client :=
  {| start_query_execution := fun _ _ _ => Raise e;
     get_query_execution := fun _ _ => Return (status_response "SUCCEEDED");
     get_query_results := fun _ => Return (rows_response []);
     list_named_queries := fun _ => Return (PDict [("NamedQueryIds", PList [])]) |}.

Definition throttled : pyexc :=
  PyExc ClientError
    "An error occurred (ThrottlingException) when calling the GetQueryExecution operation: Rate exceeded"
    None.

(** *** Statements under test *)

(** "FetchResultRows is called exactly once per run, only after a terminal
    SUCCEEDED state has been observed": every finished run holds one fetch,
    and one of its status calls saw SUCCEEDED. *)
Definition fetch_only_after_SUCCEEDED (self : AthenaConnector) (query : pyval) : Prop :=
  forall fuel result tr,
    status_query fuel self query [] = Some (result, tr) ->
    fetches tr = 1
    /\ exists qid k,
         submitted self query = Return qid
         /\ k < polls tr
         /\ observed (__client self) qid k = Return (PStr "SUCCEEDED").

(** The five string-typed fields: name, setter, stored field. *)
Definition setters
  : list (string * (pyval -> AthenaConnector -> outcome unit * AthenaConnector)
          * (AthenaConnector -> pyval)) :=
  [ ("database", set_database, __database);
    ("output_bucket", set_output_bucket, __output_bucket);
    ("output_location", set_output_location, __output_location);
    ("workgroup", set_workgroup, __workgroup);
    ("data_catalog", set_data_catalog, __data_catalog) ].

(** The arguments of the constructor other than [region], with their names. *)
Definition optional_arguments (a : arguments) : list (string * pyval) :=
  [ ("database", arg_database a);
    ("workgroup", arg_workgroup a);
    ("data_catalog", arg_data_catalog a);
    ("output_bucket", arg_output_bucket a);
    ("output_location", arg_output_location a);
    ("aws_access_key_id", arg_aws_access_key_id a);
    ("aws_secret_access_key", arg_aws_secret_access_key a) ].

Definition truthy_non_string (v : pyval) : bool :=
  truthy v && negb (isinstance_str v).

(** ** The one-shot read operations

    [workgroups], [data_catalogs], [get_saved_query] and [get_saved_queries]
    use three more operations of the same boto3 client.  Each makes its
    remote calls and hands back a value or raises; they are modelled by that
    result. *)

Record catalog : Type := {
  list_work_groups : outcome pyval;
  list_data_catalogs : outcome pyval;
  get_named_query : forall (NamedQueryId : pyval), outcome pyval
}.

(** [try: body except (ClientError, ..., Exception) as e:
    raise Exception(f"{prefix}{e}")] around a body with no effect but its
    result. *)
Definition rewrapped {A} (prefix : string) (body : outcome A) : outcome A :=
  match body with
  | Return a => Return a
  | Raise e =>
      if existsb (issubclass (exc_cls e)) except_classes
      then Raise (PyExc Exception (prefix ++ exc_text e) (Some e))
      else Raise e
  end.

(** The comprehension [[item[key] for item in items]]. *)
Fixpoint subscript_each (key : string) (items : list pyval) : outcome (list pyval) :=
  match items with
  | [] => Return []
  | item :: rest =>
      (v <- getitem item key ;;
       vs <- subscript_each key rest ;;
       Return (v :: vs))%py
  end.

(** The [workgroups] property. *)
Definition workgroups (api : catalog) : outcome pyval :=
  rewrapped "Error Getting Workgroups: "
    (workgroups <- list_work_groups api ;;
     groups <- getitem workgroups "WorkGroups" ;;
     items <- iterate groups ;;
     workgroups_list <- subscript_each "Name" items ;;
     Return (PList workgroups_list))%py.

(** The [data_catalogs] property. *)
Definition data_catalogs (api : catalog) : outcome pyval :=
  rewrapped "Error Getting Data Catalogs: "
    (data_catalogs <- list_data_catalogs api ;;
     summary <- getitem data_catalogs "DataCatalogsSummary" ;;
     items <- iterate summary ;;
     data_catalogs_list <- subscript_each "CatalogName" items ;;
     Return (PList data_catalogs_list))%py.

Definition get_saved_query (api : catalog) (query_id : pyval) : outcome pyval :=
  rewrapped "Error Getting Saved Query: "
    (if negb (truthy query_id)
     then Raise (PyExc ValueError "Query Id Not Provided!" None)
     else (query <- get_named_query api query_id ;; Return query))%py.

(** [list(executor.map(f, xs))]: the results in the order of [xs]; the first
    input, in that order, whose call raised decides the exception. *)
Fixpoint executor_map (f : pyval -> outcome pyval) (xs : list pyval)
  : outcome (list pyval) :=
  match xs with
  | [] => Return []
  | x :: rest =>
      (y <- f x ;;
       ys <- executor_map f rest ;;
       Return (y :: ys))%py
  end.

Definition get_saved_queries (api : catalog) (self : AthenaConnector) (workgroup : pyval)
  : outcome pyval :=
  rewrapped "Error Getting Saved Queries: "
    (if truthy (py_or (__workgroup self) workgroup)
     then
       (saved_queries <- list_named_queries (__client self)
                           (py_or workgroup (__workgroup self)) ;;
        query_ids <- getitem saved_queries "NamedQueryIds" ;;
        ids <- iterate query_ids ;;
        saved_queries_list <- executor_map (get_named_query api) ids ;;
        data <- subscript_each "NamedQuery" saved_queries_list ;;
        Return (PList data))%py
     else Raise (PyExc ValueError "Workgroup Not Provided!" None)).

(** *** Vocabulary for the configuration *)

(** A field that holds a string, or a falsy value standing for "not set". *)
Definition string_or_unset (v : pyval) : bool :=
  isinstance_str v || negb (truthy v).

(** What the constructor and the setters let a connector hold. *)
Definition well_configured (self : AthenaConnector) : Prop :=
  isinstance_str (__region self) = true
  /\ string_or_unset (__database self) = true
  /\ string_or_unset (__workgroup self) = true
  /\ string_or_unset (__data_catalog self) = true
  /\ string_or_unset (__output_bucket self) = true
  /\ string_or_unset (__output_location self) = true.

(** The credentials [__init__] hands to [boto3.client]. *)
Definition credentials (a : arguments) : option (pyval * pyval) :=
  if truthy (arg_aws_access_key_id a) && truthy (arg_aws_secret_access_key a)
  then Some (arg_aws_access_key_id a, arg_aws_secret_access_key a)
  else None.

(** The five validated properties: setter, getter, the getter's complaint. *)
Definition validated_properties
  : list ((pyval -> AthenaConnector -> outcome unit * AthenaConnector)
          * (AthenaConnector -> outcome pyval) * string) :=
  [ (set_database, database, "Database Name Not Provided!");
    (set_output_bucket, output_bucket, "Output Bucket Not Provided!");
    (set_output_location, output_location, "Output Location Not Provided!");
    (set_workgroup, workgroup, "Workgroup Not Provided!");
    (set_data_catalog, data_catalog, "Data Catalog Not Provided!") ].

Definition getters : list (AthenaConnector -> outcome pyval) :=
  [region; database; output_bucket; output_location; workgroup; data_catalog].

(** *** Vocabulary for runs *)

Definition is_submission (e : event) : bool :=
  match e with StartQueryExecution _ _ _ => true | _ => false end.

(** The handle an event of the run refers to, if any. *)
Definition handle_of (e : event) : option pyval :=
  match e with
  | GetQueryExecution qid | GetQueryResults qid => Some qid
  | _ => None
  end.

(** A service for the catalog operations that answers from fixed lists. *)
Definition canned_catalog (groups catalogs : list pyval) : catalog :=
  {| list_work_groups := Return (PDict [("WorkGroups", PList groups)]);
     list_data_catalogs := Return (PDict [("DataCatalogsSummary", PList catalogs)]);
     get_named_query :=
       fun id => Return (PDict [("NamedQuery", PDict [("NamedQueryId", id)])]) |}.

Definition named (key name : string) : pyval := PDict [(key, PStr name)].

(** A service that lists the given saved-query ids. *)
Definition listing (ids : list pyval) : client :=
  {| start_query_execution := fun _ _ _ => Return (PDict [("QueryExecutionId", PStr "h1")]);
     get_query_execution := fun _ _ => Return (status_response "SUCCEEDED");
     get_query_results := fun _ => Return (rows_response []);
     list_named_queries := fun _ => Return (PDict [("NamedQueryIds", PList ids)]) |}.

(** Arguments that carry an access key id and no secret. *)
Definition half_a_key_pair : arguments :=
  {| arg_region := PStr "us-west-1"; arg_database := PStr "testing";
     arg_workgroup := PNone; arg_data_catalog := PNone; arg_output_bucket := PNone;
     arg_output_location := PNone; arg_aws_access_key_id := PStr "AKIAEXAMPLE";
     arg_aws_secret_access_key := PNone |}.

(** A [boto3.client] that succeeds only without explicit credentials, and one
    that finds no usable region data. *)
Definition ambient_credentials_only : boto3_client :=
  fun _ _ creds =>
    match creds with
    | None => Return (scripted [] "SUCCEEDED" [])
    | Some _ => Raise (PyExc ClientError "The security token included in the request is invalid" None)
    end.

Definition unknown_service : boto3_client :=
  fun _ _ _ => Raise (PyExc ValueError "Unknown service: 'athena'" None).

(** A catalog service that has lost the saved query [missing]. *)
Definition catalog_without (missing : string) : catalog :=
  {| list_work_groups := Return (PDict [("WorkGroups", PList [])]);
     list_data_catalogs := Return (PDict [("DataCatalogsSummary", PList [])]);
     get_named_query :=
       fun id =>
         if state_in id [missing]
         then Raise (PyExc ClientError
                       "An error occurred (InvalidRequestException) when calling the GetNamedQuery operation: NamedQuery not found"
                       None)
         else Return (PDict [("NamedQuery", PDict [("NamedQueryId", id)])]) |}.

(** ** Flattening *)

Lemma cell_values_of_records (cells : list pyval) :
  forallb isinstance_dict cells = true ->
  cell_values cells = Return (map value_of_cell cells).
Proof.
  induction cells as [|c cells IH]; simpl; intros H; [reflexivity|].
  apply andb_prop in H as [Hc Hcs].
  destruct c; try discriminate Hc.
  simpl. rewrite (IH Hcs). reflexivity.
Qed.

Lemma process_rows_well_formed (rows : list pyval) :
  forall acc,
    forallb raw_row rows = true ->
    process_rows rows acc = Return (acc ++ normalized_table rows)%list.
Proof.
  unfold normalized_table.
  induction rows as [|d rows IH]; simpl; intros acc H.
  - now rewrite app_nil_r.
  - apply andb_prop in H as [Hd Hrows].
    destruct d; try discriminate Hd.
    simpl in Hd |- *.
    destruct (dict_get entries "Data" (PList [])) eqn:HData; try discriminate Hd.
    simpl. rewrite (cell_values_of_records _ Hd). simpl.
    unfold more_than_one_cell at 1.
    destruct (1 <? List.length (map value_of_cell items))%nat.
    + rewrite (IH _ Hrows). now rewrite <- app_assoc.
    + exact (IH _ Hrows).
Qed.

Lemma process_rows_skips (before after : list pyval) (d : pyval) :
  isinstance_dict d = false ->
  forall acc,
    process_rows (before ++ d :: after) acc = process_rows (before ++ after) acc.
Proof.
  intros Hd.
  induction before as [|x before IH]; simpl; intros acc.
  - destruct d; try reflexivity. discriminate Hd.
  - destruct x; try apply IH.
    destruct (iterate _) as [cells|e]; simpl; [|reflexivity].
    destruct (cell_values cells) as [values|e]; simpl; [|reflexivity].
    destruct (1 <? List.length values)%nat; apply IH.
Qed.

Lemma process_rows_two_cells (rows : list pyval) :
  forall acc out,
    Forall (fun r => 2 <= List.length r) acc ->
    process_rows rows acc = Return out ->
    Forall (fun r => 2 <= List.length r) out.
Proof.
  induction rows as [|d rows IH]; simpl; intros acc out Hacc H.
  - now inversion H; subst.
  - destruct d; try (now apply (IH acc)).
    destruct (iterate _) as [cells|e]; simpl in H; [|discriminate].
    destruct (cell_values cells) as [values|e]; simpl in H; [|discriminate].
    destruct (1 <? List.length values)%nat eqn:Hlen.
    + apply (IH (acc ++ [values])%list); [|exact H].
      apply Forall_app. split; [exact Hacc|].
      constructor; [|constructor].
      apply Nat.ltb_lt in Hlen. lia.
    + now apply (IH acc).
Qed.

Lemma process_data_normalizes (rows : list pyval) :
  forallb raw_row rows = true ->
  process_data (PList rows) = Return (normalized_table rows).
Proof.
  intros H. unfold process_data. simpl.
  now rewrite (process_rows_well_formed rows [] H).
Qed.

Lemma records_are_dicts (cells : list (list (string * pyval))) :
  forallb isinstance_dict (map PDict cells) = true.
Proof. induction cells; simpl; auto. Qed.

Lemma single_row_table (cells : list pyval) :
  forallb isinstance_dict cells = true ->
  2 <= List.length cells ->
  process_data (PList [row cells]) = Return [map value_of_cell cells].
Proof.
  intros Hcells Hlen.
  rewrite process_data_normalizes by (simpl; now rewrite Hcells).
  unfold normalized_table. simpl. unfold more_than_one_cell.
  rewrite length_map.
  destruct (1 <? List.length cells)%nat eqn:E; [reflexivity|].
  apply Nat.ltb_ge in E. lia.
Qed.

(** C2: on every sequence of raw result rows, [process_data] returns the rows'
    extracted cell sequences, keeping exactly those with more than one cell,
    unchanged and in their original order. *)
Theorem process_data_keeps_rows_with_more_than_one_cell (rows : list pyval) :
  forallb raw_row rows = true ->
  process_data (PList rows)
  = Return (filter (fun cells => (1 <? List.length cells)%nat) (map cells_of_row rows)).
Proof. exact (process_data_normalizes rows). Qed.

(** The specification's example: [[], ["a"], ["a","b"], ["a","b","c"]]
    flattens to [["a","b"], ["a","b","c"]]. *)
Lemma process_data_example :
  forallb raw_row
    [text_row []; text_row ["a"]; text_row ["a"; "b"]; text_row ["a"; "b"; "c"]] = true
  /\ process_data
       (PList [text_row []; text_row ["a"]; text_row ["a"; "b"]; text_row ["a"; "b"; "c"]])
     = Return [[PStr "a"; PStr "b"]; [PStr "a"; PStr "b"; PStr "c"]].
Proof.
  split; [reflexivity|].
  exact (process_data_keeps_rows_with_more_than_one_cell
           [text_row []; text_row ["a"]; text_row ["a"; "b"]; text_row ["a"; "b"; "c"]]
           eq_refl).
Defined.

(** C5: in a row that is kept, a cell record without a value entry flattens to
    [None], a cell holding the empty string flattens to the empty string, and
    the two tables differ. *)
Theorem missing_value_flattens_to_None
  (before after : list (list (string * pyval))) (entries : list (string * pyval)) :
  assoc "VarCharValue" entries = None ->
  1 <= List.length before + List.length after ->
  process_data (PList [row (map PDict before ++ PDict entries :: map PDict after)])
  = Return [map value_of_cell (map PDict before) ++ PNone
              :: map value_of_cell (map PDict after)]%list
  /\ process_data (PList [row (map PDict before ++ cell (Some "") :: map PDict after)])
     = Return [map value_of_cell (map PDict before) ++ PStr ""
                 :: map value_of_cell (map PDict after)]%list
  /\ process_data (PList [row (map PDict before ++ PDict entries :: map PDict after)])
     <> process_data (PList [row (map PDict before ++ cell (Some "") :: map PDict after)]).
Proof.
  intros Hmissing Hlen.
  assert (Hshape : forall c, isinstance_dict c = true ->
            forallb isinstance_dict (map PDict before ++ c :: map PDict after)%list = true).
  { intros c Hc. rewrite forallb_app. simpl.
    now rewrite !records_are_dicts, Hc. }
  assert (Hsize : forall c,
            2 <= List.length (map PDict before ++ c :: map PDict after)%list).
  { intros c. rewrite length_app. simpl. rewrite !length_map. lia. }
  assert (Hnull : process_data
            (PList [row (map PDict before ++ PDict entries :: map PDict after)])
          = Return [map value_of_cell (map PDict before) ++ PNone
                      :: map value_of_cell (map PDict after)]%list).
  { rewrite single_row_table by auto.
    rewrite map_app. simpl. unfold dict_get. now rewrite Hmissing. }
  assert (Hempty : process_data
            (PList [row (map PDict before ++ cell (Some "") :: map PDict after)])
          = Return [map value_of_cell (map PDict before) ++ PStr ""
                      :: map value_of_cell (map PDict after)]%list).
  { rewrite single_row_table by auto.
    rewrite map_app. reflexivity. }
  split; [exact Hnull|]. split; [exact Hempty|].
  rewrite Hnull, Hempty. intros Heq.
  injection Heq as Heq. apply app_inv_head in Heq. discriminate Heq.
Qed.

(** The row [["a", null]] against the row [["a", ""]]. *)
Lemma missing_value_flattens_to_None_example :
  (assoc "VarCharValue" [] = None /\ 1 <= List.length [[("VarCharValue", PStr "a")]] + List.length (@nil (list (string * pyval))))
  /\ process_data (PList [row [cell (Some "a"); cell None]]) = Return [[PStr "a"; PNone]]
  /\ process_data (PList [row [cell (Some "a"); cell (Some "")]]) = Return [[PStr "a"; PStr ""]]
  /\ process_data (PList [row [cell (Some "a"); cell None]])
     <> process_data (PList [row [cell (Some "a"); cell (Some "")]]).
Proof.
  split; [split; [reflexivity | simpl; lia]|].
  apply (missing_value_flattens_to_None [[("VarCharValue", PStr "a")]] [] []);
    [reflexivity | simpl; lia].
Defined.

(** ** The polling loop *)

Lemma polls_app (a b : trace) : polls (a ++ b)%list = polls a + polls b.
Proof. unfold polls. now rewrite filter_app, length_app. Qed.

Lemma fetches_app (a b : trace) : fetches (a ++ b)%list = fetches a + fetches b.
Proof. unfold fetches. now rewrite filter_app, length_app. Qed.

Lemma sleeps_app (a b : trace) : sleeps_of (a ++ b)%list = (sleeps_of a ++ sleeps_of b)%list.
Proof. apply flat_map_app. Qed.

Section Polling.

Variable c : client.
Variable qid : pyval.

Lemma polls_waiting (n : nat) : forall from, polls (waiting c qid from n) = n.
Proof.
  induction n as [|n IH]; intros from; [reflexivity|].
  change (polls (waiting c qid from (S n)))
    with (S (polls (waiting c qid (S from) n))).
  now rewrite IH.
Qed.

Lemma fetches_waiting (n : nat) : forall from, fetches (waiting c qid from n) = 0.
Proof. induction n as [|n IH]; intros from; [reflexivity | exact (IH (S from))]. Qed.

Lemma sleeps_waiting (n : nat) :
  forall from, sleeps_of (waiting c qid from n) = repeat 5%Z n.
Proof.
  induction n as [|n IH]; intros from; simpl; [reflexivity | now rewrite IH].
Qed.

(** One round, by what the status call lets the loop see. *)
Lemma poll_round (tr : trace) :
  poll c qid tr =
  match observed c qid (polls tr) with
  | Return state =>
      if state_in state terminal_states
      then Some (Return Break,
                 tr ++ [GetQueryExecution qid; Ic (completed_message state)])%list
      else Some (Return Continue,
                 tr ++ [GetQueryExecution qid; Ic (progress_message state); Sleep 5])%list
  | Raise e => Some (Raise e, tr ++ [GetQueryExecution qid])%list
  end.
Proof.
  unfold poll, observed, bind, call_get_query_execution, lift, obind.
  destruct (get_query_execution c (polls tr) qid) as [r|e]; [|reflexivity].
  destruct (response_state r) as [st|e]; [|reflexivity].
  destruct (state_in st terminal_states); unfold ic, sleep, ret;
    now rewrite <- !app_assoc.
Qed.

Lemma polls_after_round (tr : trace) (text : string) :
  polls (tr ++ [GetQueryExecution qid; Ic text; Sleep 5])%list = S (polls tr).
Proof. rewrite polls_app. unfold polls at 2. simpl. lia. Qed.

Lemma seen_observed (k : nat) (state : pyval) :
  observed c qid k = Return state -> seen c qid k = state.
Proof. intros H. unfold seen. now rewrite H. Qed.

Lemma waiting_round (tr : trace) (p n : nat) (rest : trace) :
  ((tr ++ [GetQueryExecution qid; Ic (progress_message (seen c qid p)); Sleep 5])
     ++ waiting c qid (S p) n ++ rest
   = tr ++ waiting c qid p (S n) ++ rest)%list.
Proof. now rewrite <- app_assoc. Qed.

(** Enter the loop body once, at a trace that holds [p] status calls. *)
Ltac enter_round Hp := simpl; unfold bind; rewrite poll_round, Hp.

(** The round at [p] found the query unfinished: step over it. *)
Ltac unfinished_round Hrun :=
  let st := fresh "st" in
  let Hobs := fresh "Hobs" in
  let Hst := fresh "Hst" in
  destruct (Hrun 0 ltac:(lia)) as (st & Hobs & Hst);
  rewrite Nat.add_0_r in Hobs; rewrite Hobs, Hst;
  try rewrite <- (seen_observed _ _ Hobs).

(** Whatever the service answers, a loop that ends has polled [n + 1] times
    for some [n]: [n] rounds saw a non-terminal state and slept, and the
    last status call either showed a terminal state or raised. *)
Lemma loop_ends (fuel : nat) :
  forall tr p res tr',
    polls tr = p ->
    while_true fuel (poll c qid) tr = Some (res, tr') ->
    exists n,
      n < fuel
      /\ tr' = (tr ++ waiting c qid p n ++ closing c qid (p + n) res)%list
      /\ (forall i, i < n -> still_running c qid (p + i))
      /\ match res with
         | Return _ => reaches_terminal c qid (p + n)
         | Raise e => observed c qid (p + n) = Raise e
         end.
Proof.
  induction fuel as [|fuel IH]; intros tr p res tr' Hp H; [discriminate H|].
  simpl in H. unfold bind in H. rewrite poll_round, Hp in H.
  destruct (observed c qid p) as [st|e] eqn:Hobs.
  - destruct (state_in st terminal_states) eqn:Hst.
    + inversion H; subst. exists 0. rewrite Nat.add_0_r.
      repeat split; [lia | | intros i Hi; lia | now exists st].
      simpl. now rewrite (seen_observed _ _ Hobs).
    + apply (IH _ (S (polls tr))) in H as (n & Hn & Htr & Hrun & Hres);
        [|apply polls_after_round].
      subst p. exists (S n). repeat split.
      * lia.
      * rewrite Htr, <- (seen_observed _ _ Hobs), Nat.add_succ_r.
        apply waiting_round.
      * intros [|i] Hi.
        -- rewrite Nat.add_0_r. now exists st.
        -- rewrite Nat.add_succ_r. apply (Hrun i). lia.
      * rewrite Nat.add_succ_r. exact Hres.
  - inversion H; subst. exists 0. rewrite Nat.add_0_r.
    repeat split; [lia | intros i Hi; lia | exact Hobs].
Qed.

(** Conversely: [n] unfinished rounds followed by a terminal state end the
    loop as soon as the budget exceeds [n]. *)
Lemma loop_breaks (n : nat) :
  forall fuel tr p,
    polls tr = p ->
    n < fuel ->
    (forall i, i < n -> still_running c qid (p + i)) ->
    reaches_terminal c qid (p + n) ->
    while_true fuel (poll c qid) tr
    = Some (Return tt,
            tr ++ waiting c qid p n ++ closing c qid (p + n) (Return tt))%list.
Proof.
  induction n as [|n IH]; intros fuel tr p Hp Hfuel Hrun Hterm;
    (destruct fuel as [|fuel]; [lia|]); enter_round Hp.
  - rewrite Nat.add_0_r in *. destruct Hterm as (st & Hobs & Hst).
    now rewrite (seen_observed _ _ Hobs), Hobs, Hst.
  - unfinished_round Hrun.
    rewrite (IH fuel _ (S p)).
    + rewrite Nat.add_succ_r. apply f_equal, f_equal, waiting_round.
    + rewrite polls_after_round. now rewrite Hp.
    + lia.
    + intros i Hi. simpl. rewrite <- Nat.add_succ_r. apply Hrun. lia.
    + simpl. now rewrite <- Nat.add_succ_r.
Qed.

Lemma loop_raises (n : nat) (e : pyexc) :
  forall fuel tr p,
    polls tr = p ->
    n < fuel ->
    (forall i, i < n -> still_running c qid (p + i)) ->
    observed c qid (p + n) = Raise e ->
    while_true fuel (poll c qid) tr
    = Some (Raise e, tr ++ waiting c qid p n ++ [GetQueryExecution qid])%list.
Proof.
  induction n as [|n IH]; intros fuel tr p Hp Hfuel Hrun Hterm;
    (destruct fuel as [|fuel]; [lia|]); enter_round Hp.
  - rewrite Nat.add_0_r in Hterm. now rewrite Hterm.
  - unfinished_round Hrun.
    rewrite (IH fuel _ (S p)).
    + apply f_equal, f_equal, waiting_round.
    + rewrite polls_after_round. now rewrite Hp.
    + lia.
    + intros i Hi. simpl. rewrite <- Nat.add_succ_r. apply Hrun. lia.
    + simpl. now rewrite <- Nat.add_succ_r.
Qed.

(** No bound on the rounds: while every status call so far shows a
    non-terminal state, the loop is still running. *)
Lemma loop_pending (fuel : nat) :
  forall tr p,
    polls tr = p ->
    (forall i, i < fuel -> still_running c qid (p + i)) ->
    while_true fuel (poll c qid) tr = None.
Proof.
  induction fuel as [|fuel IH]; intros tr p Hp Hrun; [reflexivity|].
  enter_round Hp. unfinished_round Hrun.
  apply (IH _ (S p)).
  - rewrite polls_after_round. now rewrite Hp.
  - intros i Hi. simpl. rewrite <- Nat.add_succ_r. apply Hrun. lia.
Qed.

Lemma running_is_not_terminal (k : nat) :
  still_running c qid k -> reaches_terminal c qid k -> False.
Proof.
  intros (s1 & H1 & Hs1) (s2 & H2 & Hs2).
  rewrite H1 in H2. injection H2 as ->. congruence.
Qed.

End Polling.

(** ** Runs of [status_query] *)

Lemma handler_surfaces {A} (e : pyexc) (tr : trace) :
  (if existsb (issubclass (exc_cls e)) except_classes
   then @raise A (wrap_query_error e) tr
   else Some (Raise e, tr))
  = Some (surfaced e, tr).
Proof.
  unfold surfaced, caught, raise.
  now destruct (existsb (issubclass (exc_cls e)) except_classes).
Qed.

(** A run, by the outcome of its three phases. *)
Lemma status_query_run (fuel : nat) (self : AthenaConnector) (query : pyval) :
  status_query fuel self query [] =
  match submitted self query with
  | Raise e => Some (surfaced e, [submission self query])
  | Return qid =>
      match while_true fuel (poll (__client self) qid) [submission self query] with
      | None => None
      | Some (Raise e, tr) => Some (surfaced e, tr)
      | Some (Return _, tr) =>
          Some (guarded (fetched (__client self) qid), tr ++ [GetQueryResults qid])%list
      end
  end.
Proof.
  unfold status_query, try_except, submitted, submission, fetched, guarded,
    bind, call_start_query_execution, call_get_query_results, lift, ret, obind.
  cbn [app].
  destruct (start_query_execution _ _ _ _) as [response|e];
    [|apply handler_surfaces].
  destruct (getitem response "QueryExecutionId") as [qid|e];
    [|apply handler_surfaces].
  destruct (while_true fuel _ _) as [[[[]|e] tr]|];
    [|apply handler_surfaces|reflexivity].
  destruct (get_query_results _ qid) as [r|e]; [|apply handler_surfaces].
  destruct (response_rows r) as [rows|e]; [|apply handler_surfaces].
  destruct (process_data rows) as [out|e]; [reflexivity|apply handler_surfaces].
Qed.

Lemma completed_run_counts (self : AthenaConnector) (query qid : pyval) (k : nat) :
  polls (completed_run self query qid k) = S k
  /\ fetches (completed_run self query qid k) = 1
  /\ sleeps_of (completed_run self query qid k) = repeat 5%Z k.
Proof.
  unfold completed_run.
  change (submission self query :: waiting ?c qid 0 k ++ ?r)%list
    with ([submission self query] ++ waiting c qid 0 k ++ r)%list.
  rewrite !polls_app, !fetches_app, !sleeps_app.
  rewrite polls_waiting, fetches_waiting, sleeps_waiting.
  unfold polls, fetches. simpl. rewrite app_nil_r.
  repeat split; lia.
Qed.

Lemma run_completes (self : AthenaConnector) (query qid : pyval) (k fuel : nat) :
  submitted self query = Return qid ->
  (forall i, i < k -> still_running (__client self) qid i) ->
  reaches_terminal (__client self) qid k ->
  k < fuel ->
  status_query fuel self query []
  = Some (guarded (fetched (__client self) qid), completed_run self query qid k).
Proof.
  intros Hsub Hrun Hterm Hfuel.
  rewrite status_query_run, Hsub.
  rewrite (loop_breaks _ qid k fuel [submission self query] 0 eq_refl Hfuel Hrun Hterm).
  unfold completed_run, closing. simpl. now rewrite <- app_assoc.
Qed.

Lemma run_pending (self : AthenaConnector) (query qid : pyval) (fuel : nat) :
  submitted self query = Return qid ->
  (forall i, i < fuel -> still_running (__client self) qid i) ->
  status_query fuel self query [] = None.
Proof.
  intros Hsub Hrun.
  rewrite status_query_run, Hsub.
  now rewrite (loop_pending _ qid fuel [submission self query] 0 eq_refl Hrun).
Qed.

Lemma surfaced_is_raised {A} (e : pyexc) (a : A) : surfaced e <> Return a.
Proof. unfold surfaced. now destruct (caught e). Qed.

Lemma guarded_returns {A} (o : outcome A) (a : A) :
  guarded o = Return a -> o = Return a.
Proof.
  destruct o as [x|e]; simpl; [trivial|].
  intros H. now apply surfaced_is_raised in H.
Qed.

Lemma transport_is_surfaced_wrapped {A} (e : pyexc) :
  transport_class (exc_cls e) = true ->
  @surfaced A e = Raise (wrap_query_error e).
Proof.
  unfold surfaced, caught. destruct e as [cls text ctx]. simpl.
  now destruct cls.
Qed.

(** C1: when the [k]-th status call (counting from 0) is the first to show a
    terminal state, the run polls exactly [k + 1] times, sleeps 5 after each
    of the [k] unfinished rounds, and fetches once right after the terminal
    poll; with fewer than [k + 1] rounds allowed it is still polling, for
    every [k]. *)
Theorem polling_stops_at_first_terminal_state
  (self : AthenaConnector) (query qid : pyval) (k fuel : nat) :
  submitted self query = Return qid ->
  (forall i, i < k -> still_running (__client self) qid i) ->
  reaches_terminal (__client self) qid k ->
  (k < fuel ->
   exists result,
     status_query fuel self query [] = Some (result, completed_run self query qid k))
  /\ (fuel <= k -> status_query fuel self query [] = None)
  /\ polls (completed_run self query qid k) = S k
  /\ fetches (completed_run self query qid k) = 1
  /\ sleeps_of (completed_run self query qid k) = repeat 5%Z k.
Proof.
  intros Hsub Hrun Hterm.
  split; [|split].
  - intros Hfuel. eexists. now apply run_completes.
  - intros Hfuel. apply (run_pending self query qid); [exact Hsub|].
    intros i Hi. apply Hrun. lia.
  - apply completed_run_counts.
Qed.

(** RUNNING on the first three status calls, SUCCEEDED on the fourth: four
    status calls, one fetch. *)
Lemma three_running_then_succeeded :
  (exists result,
     status_query 4
       (connector (scripted ["RUNNING"; "RUNNING"; "RUNNING"] "SUCCEEDED" []))
       (PStr "SELECT 1") []
     = Some (result,
             [ StartQueryExecution (PStr "SELECT 1") (PStr "testing")
                 "s3://bhupenderhere/athena_query_results/";
               GetQueryExecution (PStr "h1"); Ic "Query execution is still in progress. Current state: RUNNING"; Sleep 5;
               GetQueryExecution (PStr "h1"); Ic "Query execution is still in progress. Current state: RUNNING"; Sleep 5;
               GetQueryExecution (PStr "h1"); Ic "Query execution is still in progress. Current state: RUNNING"; Sleep 5;
               GetQueryExecution (PStr "h1"); Ic "Query execution completed with state: SUCCEEDED";
               GetQueryResults (PStr "h1") ]))
  /\ polls (completed_run
              (connector (scripted ["RUNNING"; "RUNNING"; "RUNNING"] "SUCCEEDED" []))
              (PStr "SELECT 1") (PStr "h1") 3) = 4
  /\ fetches (completed_run
                (connector (scripted ["RUNNING"; "RUNNING"; "RUNNING"] "SUCCEEDED" []))
                (PStr "SELECT 1") (PStr "h1") 3) = 1.
Proof.
  assert (Hrun : forall i, i < 3 ->
            still_running (scripted ["RUNNING"; "RUNNING"; "RUNNING"] "SUCCEEDED" [])
              (PStr "h1") i).
  { intros i Hi. exists (PStr "RUNNING").
    destruct i as [|[|[|i]]]; [split; reflexivity ..|lia]. }
  assert (Hterm : reaches_terminal
            (scripted ["RUNNING"; "RUNNING"; "RUNNING"] "SUCCEEDED" []) (PStr "h1") 3).
  { exists (PStr "SUCCEEDED"). split; reflexivity. }
  destruct (polling_stops_at_first_terminal_state
              (connector (scripted ["RUNNING"; "RUNNING"; "RUNNING"] "SUCCEEDED" []))
              (PStr "SELECT 1") (PStr "h1") 3 4 eq_refl Hrun Hterm)
    as (Hdone & _ & Hpolls & Hfetches & _).
  split; [apply Hdone; lia|]. split; [exact Hpolls | exact Hfetches].
Defined.

(** C3, amended: a finished run fetches at most once; it fetches exactly when
    one of its status calls showed a terminal state (SUCCEEDED, FAILED or
    CANCELLED); and the fetch is the last call of the run, right after the
    first terminal status, with only non-terminal statuses before. *)
Theorem fetch_once_after_terminal_state
  (fuel : nat) (self : AthenaConnector) (query : pyval)
  (result : outcome (list (list pyval))) (tr : trace) :
  status_query fuel self query [] = Some (result, tr) ->
  fetches tr <= 1
  /\ (fetches tr = 1 <->
      exists qid k,
        submitted self query = Return qid
        /\ k < polls tr
        /\ reaches_terminal (__client self) qid k)
  /\ (fetches tr = 1 ->
      exists qid k,
        submitted self query = Return qid
        /\ (forall i, i < k -> still_running (__client self) qid i)
        /\ reaches_terminal (__client self) qid k
        /\ tr = completed_run self query qid k).
Proof.
  intros H. rewrite status_query_run in H.
  destruct (submitted self query) as [qid|e] eqn:Hsub.
  - destruct (while_true fuel _ _) as [[[[]|e] tr1]|] eqn:Hloop; [| |discriminate H].
    + apply (loop_ends _ _ _ _ 0) in Hloop as (n & _ & -> & Hrun & Hterm);
        [|reflexivity].
      assert (Hshape : tr = completed_run self query qid n).
      { injection H as _ <-. unfold completed_run, closing. simpl.
        now rewrite <- app_assoc. }
      clear H. subst tr. simpl in Hrun, Hterm.
      destruct (completed_run_counts self query qid n) as (Hp & Hf & _).
      rewrite Hf, Hp.
      split; [lia|]. split; [split; [intros _|reflexivity]|intros _].
      * exists qid, n. repeat split; [lia | exact Hterm].
      * exists qid, n. repeat split; assumption.
    + apply (loop_ends _ _ _ _ 0) in Hloop as (n & _ & -> & Hrun & Hraise);
        [|reflexivity].
      assert (Hshape : tr = ([submission self query] ++ waiting (__client self) qid 0 n
                               ++ [GetQueryExecution qid])%list).
      { now injection H as _ <-. }
      clear H. simpl in Hrun, Hraise.
      assert (Hf : fetches tr = 0).
      { subst tr. now rewrite !fetches_app, fetches_waiting. }
      assert (Hp : polls tr = S n).
      { subst tr. rewrite !polls_app, polls_waiting. unfold polls. simpl. lia. }
      rewrite Hf, Hp.
      split; [lia|]. split; [split|]; try discriminate.
      intros (qid' & k & Hq & Hk & Hterm). exfalso.
      injection Hq as <-.
      destruct (Nat.eq_dec k n) as [->|Hne].
      * destruct Hterm as (st & Hobs & _). congruence.
      * apply (running_is_not_terminal (__client self) qid k); [|exact Hterm].
        apply Hrun. lia.
  - injection H as _ <-. unfold fetches. simpl.
    split; [lia|]. split; [split|]; try discriminate.
    intros (qid & k & Hq & _). discriminate Hq.
Qed.

(** A run that saw QUEUED, then CANCELLED: one fetch, after a terminal state. *)
Lemma fetch_once_after_terminal_state_example :
  fetches [ StartQueryExecution (PStr "SELECT 1") (PStr "testing")
              "s3://bhupenderhere/athena_query_results/";
            GetQueryExecution (PStr "h1"); Ic "Query execution is still in progress. Current state: QUEUED"; Sleep 5;
            GetQueryExecution (PStr "h1"); Ic "Query execution completed with state: CANCELLED";
            GetQueryResults (PStr "h1") ] <= 1
  /\ exists qid k,
       submitted (connector (scripted ["QUEUED"] "CANCELLED" [])) (PStr "SELECT 1")
       = Return qid
       /\ k < 2
       /\ reaches_terminal (scripted ["QUEUED"] "CANCELLED" []) qid k.
Proof.
  destruct (fetch_once_after_terminal_state 2
              (connector (scripted ["QUEUED"] "CANCELLED" []))
              (PStr "SELECT 1") (Return []) _ eq_refl)
    as (Hmost & Hiff & _).
  split; [exact Hmost|]. apply Hiff. reflexivity.
Defined.

(** C3 as stated fails: the first status is FAILED, SUCCEEDED is never seen,
    and the results are fetched all the same. *)
Lemma fetch_after_FAILED :
  status_query 1 (connector (scripted [] "FAILED" [])) (PStr "SELECT 1") []
  = Some (Return [],
          [ StartQueryExecution (PStr "SELECT 1") (PStr "testing")
              "s3://bhupenderhere/athena_query_results/";
            GetQueryExecution (PStr "h1"); Ic "Query execution completed with state: FAILED";
            GetQueryResults (PStr "h1") ])
  /\ (forall k, observed (scripted [] "FAILED" []) (PStr "h1") k = Return (PStr "FAILED"))
  /\ ~ fetch_only_after_SUCCEEDED (connector (scripted [] "FAILED" [])) (PStr "SELECT 1").
Proof.
  assert (Hobs : forall k, observed (scripted [] "FAILED" []) (PStr "h1") k
                           = Return (PStr "FAILED")).
  { intros k. unfold observed, scripted. simpl. now destruct k. }
  split; [reflexivity|]. split; [exact Hobs|].
  intros Hclaim.
  destruct (Hclaim 1 _ _ eq_refl) as (_ & qid & k & Hq & _ & Hk).
  injection Hq as <-. simpl in Hk. rewrite Hobs in Hk. discriminate Hk.
Qed.

(** C4: a run whose first terminal state is FAILED or CANCELLED, with every
    service call answering, does not raise: it fetches and returns the
    flattening of whatever rows the service hands back. *)
Theorem non_success_terminal_state_still_returns
  (self : AthenaConnector) (query qid : pyval) (k fuel : nat)
  (state : string) (result_response : pyval) (rows : list pyval) :
  submitted self query = Return qid ->
  (forall i, i < k -> still_running (__client self) qid i) ->
  observed (__client self) qid k = Return (PStr state) ->
  state = "FAILED" \/ state = "CANCELLED" ->
  get_query_results (__client self) qid = Return result_response ->
  response_rows result_response = Return (PList rows) ->
  forallb raw_row rows = true ->
  k < fuel ->
  status_query fuel self query []
  = Some (Return (normalized_table rows), completed_run self query qid k).
Proof.
  intros Hsub Hrun Hobs Hstate Hfetch Hrows Hshape Hfuel.
  rewrite (run_completes self query qid k fuel Hsub Hrun); [|
    exists (PStr state); split; [exact Hobs | now destruct Hstate as [-> | ->]] | exact Hfuel].
  unfold fetched. rewrite Hfetch. simpl. rewrite Hrows. simpl.
  fold (process_data (PList rows)).
  now rewrite (process_data_normalizes rows Hshape).
Qed.

(** RUNNING, then CANCELLED, and an empty result set: the run returns []. *)
Lemma cancelled_run_returns :
  status_query 2 (connector (scripted ["RUNNING"] "CANCELLED" [])) (PStr "SELECT 1") []
  = Some (Return [],
          [ StartQueryExecution (PStr "SELECT 1") (PStr "testing")
              "s3://bhupenderhere/athena_query_results/";
            GetQueryExecution (PStr "h1"); Ic "Query execution is still in progress. Current state: RUNNING"; Sleep 5;
            GetQueryExecution (PStr "h1"); Ic "Query execution completed with state: CANCELLED";
            GetQueryResults (PStr "h1") ]).
Proof.
  refine (non_success_terminal_state_still_returns
            (connector (scripted ["RUNNING"] "CANCELLED" []))
            (PStr "SELECT 1") (PStr "h1") 1 2 "CANCELLED" (rows_response []) []
            eq_refl _ eq_refl (or_intror eq_refl) eq_refl eq_refl eq_refl _).
  - intros i Hi. exists (PStr "RUNNING").
    destruct i as [|i]; [split; reflexivity | lia].
  - lia.
Defined.

(** C6: a transport-class error raised by the submission, by a status call or
    by the fetch ends the run at once: the failing call is the last event of
    the trace, and the caller receives one [Exception] whose text embeds the
    error's and whose context is the error itself. *)
Theorem transport_error_is_wrapped_once
  (self : AthenaConnector) (query : pyval) (e : pyexc) :
  transport_class (exc_cls e) = true ->
  (start_query_execution (__client self) query (__database self) (staging_uri self)
   = Raise e ->
   forall fuel,
     status_query fuel self query []
     = Some (Raise (wrap_query_error e), [submission self query]))
  /\ (forall qid k fuel,
        submitted self query = Return qid ->
        (forall i, i < k -> still_running (__client self) qid i) ->
        get_query_execution (__client self) k qid = Raise e ->
        k < fuel ->
        status_query fuel self query []
        = Some (Raise (wrap_query_error e), interrupted_run self query qid k))
  /\ (forall qid k fuel,
        submitted self query = Return qid ->
        (forall i, i < k -> still_running (__client self) qid i) ->
        reaches_terminal (__client self) qid k ->
        get_query_results (__client self) qid = Raise e ->
        k < fuel ->
        status_query fuel self query []
        = Some (Raise (wrap_query_error e), completed_run self query qid k))
  /\ exc_cls (wrap_query_error e) = Exception
  /\ exc_text (wrap_query_error e) = "Error While Running Query: " ++ exc_text e
  /\ exc_context (wrap_query_error e) = Some e.
Proof.
  intros Hclass. repeat split.
  - intros Hstart fuel. rewrite status_query_run.
    unfold submitted. rewrite Hstart. simpl.
    now rewrite transport_is_surfaced_wrapped.
  - intros qid k fuel Hsub Hrun Hpoll Hfuel.
    rewrite status_query_run, Hsub.
    rewrite (loop_raises _ qid k e fuel [submission self query] 0 eq_refl Hfuel Hrun).
    + now rewrite transport_is_surfaced_wrapped.
    + simpl. unfold observed. now rewrite Hpoll.
  - intros qid k fuel Hsub Hrun Hterm Hfetch Hfuel.
    rewrite (run_completes self query qid k fuel); auto.
    unfold fetched. rewrite Hfetch. simpl.
    now rewrite transport_is_surfaced_wrapped.
Qed.

(** A throttled call is surfaced at once, whichever of the three calls it is. *)
Lemma throttled_call_is_surfaced :
  status_query 1 (connector (failing_start throttled)) (PStr "SELECT 1") []
  = Some (Raise (wrap_query_error throttled),
          [ StartQueryExecution (PStr "SELECT 1") (PStr "testing")
              "s3://bhupenderhere/athena_query_results/" ])
  /\ status_query 3 (connector (failing_poll 2 throttled)) (PStr "SELECT 1") []
     = Some (Raise (wrap_query_error throttled),
             [ StartQueryExecution (PStr "SELECT 1") (PStr "testing")
                 "s3://bhupenderhere/athena_query_results/";
               GetQueryExecution (PStr "h1");
               Ic "Query execution is still in progress. Current state: RUNNING";
               Sleep 5;
               GetQueryExecution (PStr "h1");
               Ic "Query execution is still in progress. Current state: RUNNING";
               Sleep 5;
               GetQueryExecution (PStr "h1") ])
  /\ status_query 1 (connector (failing_fetch throttled)) (PStr "SELECT 1") []
     = Some (Raise (wrap_query_error throttled),
             [ StartQueryExecution (PStr "SELECT 1") (PStr "testing")
                 "s3://bhupenderhere/athena_query_results/";
               GetQueryExecution (PStr "h1");
               Ic "Query execution completed with state: SUCCEEDED";
               GetQueryResults (PStr "h1") ]).
Proof.
  split; [|split].
  - exact (proj1 (transport_error_is_wrapped_once
             (connector (failing_start throttled)) (PStr "SELECT 1") throttled eq_refl)
             eq_refl 1).
  - refine (proj1 (proj2 (transport_error_is_wrapped_once
              (connector (failing_poll 2 throttled)) (PStr "SELECT 1") throttled eq_refl))
              (PStr "h1") 2 3 eq_refl _ eq_refl _); [|lia].
    intros i Hi. exists (PStr "RUNNING").
    destruct i as [|[|i]]; [split; reflexivity ..|lia].
  - refine (proj1 (proj2 (proj2 (transport_error_is_wrapped_once
              (connector (failing_fetch throttled)) (PStr "SELECT 1") throttled eq_refl)))
              (PStr "h1") 0 1 eq_refl _ _ eq_refl _); [| |lia].
    + intros i Hi. lia.
    + exists (PStr "SUCCEEDED"). split; reflexivity.
Defined.

Lemma process_data_two_cells (data : pyval) (out : list (list pyval)) :
  process_data data = Return out ->
  Forall (fun r => 2 <= List.length r) out.
Proof.
  unfold process_data. destruct (iterate data) as [rows|e]; simpl; [|discriminate].
  now apply process_rows_two_cells.
Qed.

(** C9: an entry of the raw rows that is not a dictionary is skipped without
    any effect on the result, and every row of a table that [process_data],
    hence [status_query], returns has at least two cells. *)
Theorem non_records_skipped_and_rows_have_two_cells :
  (forall before d after,
     isinstance_dict d = false ->
     process_data (PList (before ++ d :: after)) = process_data (PList (before ++ after)))
  /\ (forall data out,
        process_data data = Return out ->
        Forall (fun r => 2 <= List.length r) out)
  /\ (forall fuel self query out tr,
        status_query fuel self query [] = Some (Return out, tr) ->
        Forall (fun r => 2 <= List.length r) out).
Proof.
  split; [|split].
  - intros before d after Hd. unfold process_data. simpl.
    now apply process_rows_skips.
  - exact process_data_two_cells.
  - intros fuel self query out tr H. rewrite status_query_run in H.
    destruct (submitted self query) as [qid|e].
    + destruct (while_true fuel _ _) as [[[[]|e] tr1]|]; [| |discriminate H].
      * injection H as H _. apply guarded_returns in H.
        unfold fetched in H.
        destruct (get_query_results _ qid) as [r|e]; [|discriminate H].
        simpl in H.
        destruct (response_rows r) as [rows|e]; [|discriminate H].
        simpl in H. now apply (process_data_two_cells rows).
      * injection H as H _. now apply surfaced_is_raised in H.
    + injection H as H _. now apply surfaced_is_raised in H.
Qed.

(** A string and [None] among the rows are passed over; the one-cell row is
    dropped. *)
Lemma non_records_skipped_example :
  process_data (PList [text_row ["a"; "b"]; PStr "junk"; PNone; text_row ["c"]])
  = Return [[PStr "a"; PStr "b"]]
  /\ Forall (fun r => 2 <= List.length r) [[PStr "a"; PStr "b"]].
Proof.
  split; [reflexivity|].
  exact (proj1 (proj2 non_records_skipped_and_rows_have_two_cells)
           (PList [text_row ["a"; "b"]; PStr "junk"; PNone; text_row ["c"]])
           [[PStr "a"; PStr "b"]] eq_refl).
Defined.

(** ** Construction and configuration *)

Lemma check_region (k : pyval) :
  __check k "region"
  = if isinstance_str k then Return tt
    else Raise (PyExc TypeError (expected_string "region") None).
Proof. unfold __check. now destruct (isinstance_str k). Qed.

Lemma check_optional (k : pyval) (name : string) :
  str_in "region" name = false ->
  __check k name
  = if truthy_non_string k
    then Raise (PyExc TypeError (expected_string name) None)
    else Return tt.
Proof. intros H. unfold __check, truthy_non_string. now rewrite H. Qed.

(** C7 fails on the code: built without workgroup, output bucket and output
    location, the connector is constructed; its [output_bucket] and
    [output_location] properties raise the configuration error when read, and
    [get_saved_queries_ids] raises it before any remote call; [status_query]
    raises none and submits the query with the result location
    "s3://None/None". *)
Lemma status_query_skips_configuration_check :
  exists self,
    __init__ (fun _ _ _ => Return (scripted [] "SUCCEEDED" []))
      (region_and_database "us-west-1" "testing") = Return self
    /\ output_bucket self = Raise (PyExc ValueError "Output Bucket Not Provided!" None)
    /\ output_location self
       = Raise (PyExc ValueError "Output Location Not Provided!" None)
    /\ get_saved_queries_ids self PNone []
       = Some (Raise (PyExc Exception "Error Getting Saved Queries: Workgroup Not Provided!"
                        (Some (PyExc ValueError "Workgroup Not Provided!" None))),
               [])
    /\ status_query 1 self (PStr "SELECT 1") []
       = Some (Return [],
               [ StartQueryExecution (PStr "SELECT 1") (PStr "testing") "s3://None/None";
                 GetQueryExecution (PStr "h1");
                 Ic "Query execution completed with state: SUCCEEDED";
                 GetQueryResults (PStr "h1") ]).
Proof. eexists. split; [reflexivity|]. repeat split. Qed.

(** C8: each of the five setters, given a non-string, raises a [TypeError] and
    leaves the object as it was; given a string, it returns and the stored
    field holds that string. *)
Theorem setters_accept_only_strings :
  Forall
    (fun '(name, set, field) =>
       forall (v : pyval) (self : AthenaConnector),
         (isinstance_str v = false ->
          set v self = (Raise (PyExc TypeError (expected_string name) None), self))
         /\ (isinstance_str v = true ->
             exists self', set v self = (Return tt, self') /\ field self' = v))
    setters.
Proof.
  unfold setters.
  repeat constructor; intros H;
    unfold set_database, set_output_bucket, set_output_location, set_workgroup,
      set_data_catalog;
    rewrite H; simpl; eauto.
Qed.

(** C10: construction raises a [TypeError] whenever [region] is not a string,
    [None] included; with a string [region], it raises a [TypeError] exactly
    when some other argument is truthy and not a string (naming the first
    such argument), so [None] is accepted for each of them. *)
Theorem region_must_be_a_string (boto3 : boto3_client) (a : arguments) :
  (if isinstance_str (arg_region a)
   then
     match find (fun nv => truthy_non_string (snd nv)) (optional_arguments a) with
     | Some (name, _) =>
         __get_args a = Raise (PyExc TypeError (expected_string name) None)
         /\ __init__ boto3 a = Raise (PyExc TypeError (expected_string name) None)
     | None =>
         __get_args a = Return (("region", arg_region a) :: optional_arguments a)
     end
   else
     __get_args a = Raise (PyExc TypeError (expected_string "region") None)
     /\ __init__ boto3 a = Raise (PyExc TypeError (expected_string "region") None))
  /\ (forall r : string,
        __get_args (only_region r)
        = Return (("region", PStr r) :: optional_arguments (only_region r))).
Proof.
  split; [|reflexivity].
  destruct a as [r d w dc ob ol ak sk].
  unfold __init__, __get_args, optional_arguments.
  cbn [arg_region arg_database arg_workgroup arg_data_catalog arg_output_bucket
       arg_output_location arg_aws_access_key_id arg_aws_secret_access_key].
  rewrite check_region.
  rewrite (check_optional d "database" eq_refl),
    (check_optional w "workgroup" eq_refl),
    (check_optional dc "data_catalog" eq_refl),
    (check_optional ob "output_bucket" eq_refl),
    (check_optional ol "output_location" eq_refl),
    (check_optional ak "aws_access_key_id" eq_refl),
    (check_optional sk "aws_secret_access_key" eq_refl).
  cbn [find snd].
  destruct (isinstance_str r); [|split; reflexivity].
  cbn [obind].
  destruct (truthy_non_string d); [split; reflexivity|]. cbn [obind].
  destruct (truthy_non_string w); [split; reflexivity|]. cbn [obind].
  destruct (truthy_non_string dc); [split; reflexivity|]. cbn [obind].
  destruct (truthy_non_string ob); [split; reflexivity|]. cbn [obind].
  destruct (truthy_non_string ol); [split; reflexivity|]. cbn [obind].
  destruct (truthy_non_string ak); [split; reflexivity|]. cbn [obind].
  destruct (truthy_non_string sk); [split; reflexivity|]. cbn [obind].
  reflexivity.
Qed.

(** ** More on construction and the properties *)

Lemma get_args_returns (a : arguments) (args : list (string * pyval)) :
  __get_args a = Return args ->
  args = ("region", arg_region a) :: optional_arguments a
  /\ isinstance_str (arg_region a) = true
  /\ Forall (fun nv => truthy_non_string (snd nv) = false) (optional_arguments a).
Proof.
  destruct a as [r d w dc ob ol ak sk].
  unfold __get_args, optional_arguments.
  cbn [arg_region arg_database arg_workgroup arg_data_catalog arg_output_bucket
       arg_output_location arg_aws_access_key_id arg_aws_secret_access_key].
  rewrite check_region.
  rewrite (check_optional d "database" eq_refl),
    (check_optional w "workgroup" eq_refl),
    (check_optional dc "data_catalog" eq_refl),
    (check_optional ob "output_bucket" eq_refl),
    (check_optional ol "output_location" eq_refl),
    (check_optional ak "aws_access_key_id" eq_refl),
    (check_optional sk "aws_secret_access_key" eq_refl).
  destruct (isinstance_str r); [|discriminate]. cbn [obind].
  destruct (truthy_non_string d) eqn:Hd; [discriminate|]. cbn [obind].
  destruct (truthy_non_string w) eqn:Hw; [discriminate|]. cbn [obind].
  destruct (truthy_non_string dc) eqn:Hdc; [discriminate|]. cbn [obind].
  destruct (truthy_non_string ob) eqn:Hob; [discriminate|]. cbn [obind].
  destruct (truthy_non_string ol) eqn:Hol; [discriminate|]. cbn [obind].
  destruct (truthy_non_string ak) eqn:Hak; [discriminate|]. cbn [obind].
  destruct (truthy_non_string sk) eqn:Hsk; [discriminate|]. cbn [obind].
  intros H. injection H as <-.
  repeat split. repeat constructor; assumption.
Qed.

Lemma unset_or_string (v : pyval) :
  truthy_non_string v = false -> string_or_unset v = true.
Proof.
  unfold truthy_non_string, string_or_unset.
  now destruct (truthy v), (isinstance_str v).
Qed.

(** What a successful construction leaves in the object. *)
Lemma init_returns (boto3 : boto3_client) (a : arguments) (self : AthenaConnector) :
  __init__ boto3 a = Return self ->
  self = {| __args := ("region", arg_region a) :: optional_arguments a;
            __region := arg_region a;
            __database := arg_database a;
            __workgroup := arg_workgroup a;
            __data_catalog := arg_data_catalog a;
            __output_bucket := arg_output_bucket a;
            __output_location := arg_output_location a;
            __aws_access_key_id := arg_aws_access_key_id a;
            __aws_secret_access_key := arg_aws_secret_access_key a;
            __client := __client self |}
  /\ boto3 "athena" (arg_region a) (credentials a) = Return (__client self).
Proof.
  unfold __init__, credentials. intros H.
  destruct (__get_args a) as [args|e] eqn:Hargs; [|discriminate H].
  apply get_args_returns in Hargs as (-> & _ & _).
  cbn [obind] in H. unfold optional_arguments, dict_get in H. cbn in H.
  destruct (truthy (arg_aws_access_key_id a) && truthy (arg_aws_secret_access_key a)).
  - destruct (boto3 _ _ _) as [c|e]; [|discriminate H].
    injection H as <-. split; reflexivity.
  - destruct (boto3 _ _ _) as [c|e]; [|discriminate H].
    injection H as <-. split; reflexivity.
Qed.

(** X1: a string assigned through a setter reads back through the getter,
    except the empty string, which the setter accepts and the getter reports
    as not provided. *)
Theorem setter_then_getter :
  Forall
    (fun '(set, get, complaint) =>
       forall (s : string) (self : AthenaConnector),
         fst (set (PStr s) self) = Return tt
         /\ get (snd (set (PStr s) self))
            = if (s =? "")%string
              then Raise (PyExc ValueError complaint None)
              else Return (PStr s))
    validated_properties.
Proof.
  unfold validated_properties.
  repeat constructor;
    unfold set_database, set_output_bucket, set_output_location, set_workgroup,
      set_data_catalog, database, output_bucket, output_location, workgroup,
      data_catalog; simpl;
    now destruct (s =? "")%string.
Qed.

(** X2: construction leaves a string in [region] and a string or a falsy
    value in every other configuration field; every setter, whether it
    raises or not, keeps it so; and on such an object a getter that returns,
    returns a string. *)
Theorem configuration_stays_string_typed :
  (forall boto3 a self, __init__ boto3 a = Return self -> well_configured self)
  /\ (forall set v self,
        In set (map (fun p => fst (fst p)) validated_properties) ->
        well_configured self ->
        well_configured (snd (set v self)))
  /\ (forall get self v,
        In get getters ->
        well_configured self ->
        get self = Return v ->
        isinstance_str v = true).
Proof.
  split; [|split].
  - intros boto3 a self H.
    destruct (__get_args a) as [args|e] eqn:Hargs;
      [|unfold __init__ in H; rewrite Hargs in H; discriminate H].
    apply get_args_returns in Hargs as (_ & Hregion & Hrest).
    apply init_returns in H as (-> & _).
    unfold optional_arguments in Hrest.
    repeat match goal with
           | H : Forall _ (_ :: _) |- _ => inversion_clear H
           end.
    unfold well_configured. simpl.
    repeat split; auto using unset_or_string.
  - intros set v self Hin (Hr & Hd & Hw & Hdc & Hob & Hol).
    assert (Hv : isinstance_str v = true -> string_or_unset v = true).
    { unfold string_or_unset. now intros ->. }
    simpl in Hin.
    destruct Hin as [<-|[<-|[<-|[<-|[<-|[]]]]]];
      unfold set_database, set_output_bucket, set_output_location, set_workgroup,
        set_data_catalog;
      (destruct (isinstance_str v) eqn:Hs; simpl;
       [unfold well_configured; simpl; repeat split; auto
       |unfold well_configured; repeat split; assumption]).
  - intros get self v Hin (Hr & Hd & Hw & Hdc & Hob & Hol) Hget.
    assert (Hstr : forall x, string_or_unset x = true -> truthy x = true ->
                             isinstance_str x = true).
    { intros x. unfold string_or_unset. now destruct (isinstance_str x), (truthy x). }
    simpl in Hin.
    destruct Hin as [<-|[<-|[<-|[<-|[<-|[<-|[]]]]]]];
      unfold region, database, output_bucket, output_location, workgroup, data_catalog
        in Hget;
      try (injection Hget as <-; exact Hr);
      match type of Hget with
      | (if negb (truthy ?x) then _ else _) = _ =>
          destruct (truthy x) eqn:Ht; simpl in Hget; [|discriminate Hget];
          injection Hget as <-; now apply Hstr
      end.
Qed.

(** X3: a construction that succeeds has stored every argument in its own
    field, and its client is the one [boto3.client] built for the region,
    with the key pair only when both halves are truthy: half a pair is
    dropped. *)
Theorem constructor_stores_arguments
  (boto3 : boto3_client) (a : arguments) (self : AthenaConnector) :
  __init__ boto3 a = Return self ->
  __region self = arg_region a
  /\ __database self = arg_database a
  /\ __workgroup self = arg_workgroup a
  /\ __data_catalog self = arg_data_catalog a
  /\ __output_bucket self = arg_output_bucket a
  /\ __output_location self = arg_output_location a
  /\ __aws_access_key_id self = arg_aws_access_key_id a
  /\ __aws_secret_access_key self = arg_aws_secret_access_key a
  /\ boto3 "athena" (arg_region a) (credentials a) = Return (__client self)
  /\ (truthy (arg_aws_access_key_id a) = false
      \/ truthy (arg_aws_secret_access_key a) = false ->
      boto3 "athena" (arg_region a) None = Return (__client self)).
Proof.
  intros H. apply init_returns in H as (Hself & Hclient).
  rewrite Hself. simpl.
  repeat split; try reflexivity; try exact Hclient.
  intros Hhalf. rewrite <- Hclient. unfold credentials.
  now destruct Hhalf as [-> | ->]; rewrite ?andb_false_r.
Qed.

(** An access key id without its secret: the client is built without
    credentials. *)
Lemma half_a_key_pair_is_dropped :
  exists self,
    __init__ ambient_credentials_only half_a_key_pair = Return self
    /\ __aws_access_key_id self = PStr "AKIAEXAMPLE"
    /\ ambient_credentials_only "athena" (PStr "us-west-1") None
       = Return (__client self).
Proof.
  eexists. split; [reflexivity|].
  destruct (constructor_stores_arguments ambient_credentials_only half_a_key_pair _
              eq_refl)
    as (_ & _ & _ & _ & _ & _ & Hid & _ & _ & Hhalf).
  split; [exact Hid | apply Hhalf; right; reflexivity].
Defined.

(** X4: when the argument checks pass and [boto3.client] raises, the
    constructor raises that very exception: unlike the operations, it wraps
    nothing. *)
Theorem constructor_passes_boto3_failure
  (boto3 : boto3_client) (a : arguments) (args : list (string * pyval)) (e : pyexc) :
  __get_args a = Return args ->
  boto3 "athena" (arg_region a) (credentials a) = Raise e ->
  __init__ boto3 a = Raise e.
Proof.
  intros Hargs Hclient. unfold __init__. rewrite Hargs.
  apply get_args_returns in Hargs as (-> & _ & _).
  cbn [obind]. unfold optional_arguments, dict_get. cbn.
  unfold credentials in Hclient.
  destruct (truthy (arg_aws_access_key_id a) && truthy (arg_aws_secret_access_key a));
    now rewrite Hclient.
Qed.

Lemma unknown_service_is_not_wrapped :
  __init__ unknown_service (only_region "us-west-1")
  = Raise (PyExc ValueError "Unknown service: 'athena'" None).
Proof.
  exact (constructor_passes_boto3_failure unknown_service (only_region "us-west-1")
           _ _ eq_refl eq_refl).
Defined.

(** ** [get_saved_queries_ids] *)

Lemma caught_is_Exception (e : pyexc) :
  existsb (issubclass (exc_cls e)) except_classes = issubclass (exc_cls e) Exception.
Proof. destruct e as [cls text ctx]. now destruct cls. Qed.

(** The operation, by the answer of its one remote call. *)
Lemma saved_queries_ids_run (self : AthenaConnector) (workgroup : pyval) (tr : trace) :
  get_saved_queries_ids self workgroup tr =
  if truthy (py_or (__workgroup self) workgroup)
  then Some (rewrapped "Error Getting Saved Queries: "
               (saved_queries <- list_named_queries (__client self)
                                   (py_or workgroup (__workgroup self)) ;;
                getitem saved_queries "NamedQueryIds")%py,
             tr ++ [ListNamedQueries (py_or workgroup (__workgroup self))])%list
  else Some (Raise (PyExc Exception "Error Getting Saved Queries: Workgroup Not Provided!"
                      (Some (PyExc ValueError "Workgroup Not Provided!" None))),
             tr).
Proof.
  unfold get_saved_queries_ids, try_except, rewrapped.
  destruct (truthy (py_or (__workgroup self) workgroup)); [|reflexivity].
  unfold bind, call_list_named_queries, lift, ret, raise, obind.
  destruct (list_named_queries _ _) as [r|e].
  - destruct (getitem r "NamedQueryIds") as [ids|e]; [reflexivity|].
    now destruct (existsb _ _).
  - now destruct (existsb _ _).
Qed.

(** X5: [get_saved_queries_ids] makes one remote call, for the workgroup
    passed in when it is truthy and for the configured one otherwise, and
    returns the ["NamedQueryIds"] of the answer. *)
Theorem saved_query_ids_workgroup_choice
  (self : AthenaConnector) (workgroup chosen response ids : pyval) (tr : trace) :
  (truthy workgroup = true /\ chosen = workgroup)
  \/ (truthy workgroup = false /\ truthy (__workgroup self) = true
      /\ chosen = __workgroup self) ->
  list_named_queries (__client self) chosen = Return response ->
  getitem response "NamedQueryIds" = Return ids ->
  get_saved_queries_ids self workgroup tr
  = Some (Return ids, tr ++ [ListNamedQueries chosen])%list.
Proof.
  intros Hchoice Hcall Hids. rewrite saved_queries_ids_run.
  assert (Hor : py_or workgroup (__workgroup self) = chosen
                /\ truthy (py_or (__workgroup self) workgroup) = true).
  { unfold py_or.
    destruct Hchoice as [(Hw & ->) | (Hw & Hc & ->)]; rewrite Hw.
    - split; [reflexivity|].
      destruct (truthy (__workgroup self)) eqn:Hc; [exact Hc | exact Hw].
    - rewrite Hc. now split. }
  destruct Hor as (-> & ->).
  now rewrite Hcall; simpl; rewrite Hids.
Qed.

Lemma saved_query_ids_of_explicit_workgroup :
  get_saved_queries_ids (connector (listing [PStr "q1"; PStr "q2"])) (PStr "analytics") []
  = Some (Return (PList [PStr "q1"; PStr "q2"]), [ListNamedQueries (PStr "analytics")]).
Proof.
  exact (saved_query_ids_workgroup_choice
           (connector (listing [PStr "q1"; PStr "q2"])) (PStr "analytics")
           (PStr "analytics") _ _ [] (or_introl (conj eq_refl eq_refl)) eq_refl eq_refl).
Defined.

(** X6: without a workgroup, passed in or configured, [get_saved_queries_ids]
    raises the wrapped "Workgroup Not Provided!" and calls nothing; a failure
    of its remote call, or an answer without ["NamedQueryIds"], is wrapped
    after that single call. *)
Theorem saved_query_ids_failures
  (self : AthenaConnector) (workgroup : pyval) (tr : trace) :
  (truthy workgroup = false ->
   truthy (__workgroup self) = false ->
   get_saved_queries_ids self workgroup tr
   = Some (Raise (PyExc Exception "Error Getting Saved Queries: Workgroup Not Provided!"
                    (Some (PyExc ValueError "Workgroup Not Provided!" None))),
           tr))
  /\ (forall e,
        truthy (py_or (__workgroup self) workgroup) = true ->
        issubclass (exc_cls e) Exception = true ->
        list_named_queries (__client self) (py_or workgroup (__workgroup self)) = Raise e ->
        get_saved_queries_ids self workgroup tr
        = Some (Raise (PyExc Exception ("Error Getting Saved Queries: " ++ exc_text e)
                         (Some e)),
                tr ++ [ListNamedQueries (py_or workgroup (__workgroup self))])%list)
  /\ (forall entries,
        truthy (py_or (__workgroup self) workgroup) = true ->
        list_named_queries (__client self) (py_or workgroup (__workgroup self))
        = Return (PDict entries) ->
        assoc "NamedQueryIds" entries = None ->
        get_saved_queries_ids self workgroup tr
        = Some (Raise (PyExc Exception "Error Getting Saved Queries: 'NamedQueryIds'"
                         (Some (PyExc KeyError "'NamedQueryIds'" None))),
                tr ++ [ListNamedQueries (py_or workgroup (__workgroup self))])%list).
Proof.
  split; [|split].
  - intros Hw Hc. rewrite saved_queries_ids_run. unfold py_or. now rewrite Hc, Hw.
  - intros e Hsome Hclass Hcall. rewrite saved_queries_ids_run, Hsome, Hcall.
    unfold rewrapped. simpl obind. cbv iota. now rewrite caught_is_Exception, Hclass.
  - intros entries Hsome Hcall Hmissing.
    rewrite saved_queries_ids_run, Hsome, Hcall.
    unfold rewrapped. simpl. now rewrite Hmissing.
Qed.

(** ** More on flattening *)

Lemma process_rows_from_empty (rows : list pyval) :
  forall acc,
    process_rows rows acc
    = (out <- process_rows rows [] ;; Return (acc ++ out)%list)%py.
Proof.
  induction rows as [|d rows IH]; intros acc; simpl.
  - now rewrite app_nil_r.
  - destruct d; try apply IH.
    destruct (iterate _) as [cells|e]; simpl; [|reflexivity].
    destruct (cell_values cells) as [values|e]; simpl; [|reflexivity].
    destruct (1 <? List.length values)%nat; [|apply IH].
    rewrite (IH (acc ++ [values])%list), (IH [values]).
    destruct (process_rows rows []) as [out|e]; simpl; [|reflexivity].
    now rewrite <- app_assoc.
Qed.

Lemma process_rows_app (a b : list pyval) :
  forall acc,
    process_rows (a ++ b) acc = (mid <- process_rows a acc ;; process_rows b mid)%py.
Proof.
  induction a as [|d a IH]; intros acc; simpl; [reflexivity|].
  destruct d; try apply IH.
  destruct (iterate _) as [cells|e]; simpl; [|reflexivity].
  destruct (cell_values cells) as [values|e]; simpl; [|reflexivity].
  destruct (1 <? List.length values)%nat; apply IH.
Qed.

(** X7: flattening two batches of rows one after the other gives the
    flattening of the first followed by that of the second, and raises what
    the first batch raises, else what the second raises. *)
Theorem process_data_of_concatenation (a b : list pyval) :
  process_data (PList (a ++ b))
  = (first <- process_data (PList a) ;;
     second <- process_data (PList b) ;;
     Return (first ++ second)%list)%py.
Proof.
  unfold process_data. simpl.
  rewrite process_rows_app.
  destruct (process_rows a []) as [first|e]; simpl; [|reflexivity].
  apply process_rows_from_empty.
Qed.

Lemma cell_values_stop (before after : list pyval) (c : pyval) :
  forallb isinstance_dict before = true ->
  isinstance_dict c = false ->
  cell_values (before ++ c :: after)
  = Raise (PyExc AttributeError ("'" ++ type_name c ++ "' object has no attribute 'get'")
             None).
Proof.
  intros Hbefore Hc.
  induction before as [|x before IH]; simpl.
  - destruct c; try reflexivity. discriminate Hc.
  - simpl in Hbefore. apply andb_prop in Hbefore as [Hx Hbefore].
    destruct x; try discriminate Hx.
    simpl. now rewrite (IH Hbefore).
Qed.

(** X8: one cell that is not a dictionary, in a row after well-formed rows,
    makes the whole flattening raise an [AttributeError]: no partial table is
    returned, whatever follows. *)
Theorem process_data_rejects_a_non_record_cell
  (before after : list pyval) (entries : list (string * pyval))
  (cells_before cells_after : list pyval) (c : pyval) :
  forallb raw_row before = true ->
  dict_get entries "Data" (PList []) = PList (cells_before ++ c :: cells_after) ->
  forallb isinstance_dict cells_before = true ->
  isinstance_dict c = false ->
  process_data (PList (before ++ PDict entries :: after))
  = Raise (PyExc AttributeError ("'" ++ type_name c ++ "' object has no attribute 'get'")
             None).
Proof.
  intros Hbefore HData Hcells Hc.
  unfold process_data. simpl.
  rewrite process_rows_app, (process_rows_well_formed before [] Hbefore).
  simpl. rewrite HData. simpl.
  now rewrite (cell_values_stop cells_before cells_after c Hcells Hc).
Qed.

Lemma a_bare_string_among_the_cells :
  process_data
    (PList [text_row ["a"; "b"]; row [cell (Some "c"); PStr "d"]; text_row ["e"; "f"]])
  = Raise (PyExc AttributeError "'str' object has no attribute 'get'" None).
Proof.
  exact (process_data_rejects_a_non_record_cell
           [text_row ["a"; "b"]] [text_row ["e"; "f"]]
           [("Data", PList [cell (Some "c"); PStr "d"])]
           [cell (Some "c")] [] (PStr "d") eq_refl eq_refl eq_refl eq_refl).
Defined.

Lemma process_rows_size (rows : list pyval) :
  forall acc out,
    process_rows rows acc = Return out ->
    List.length out <= List.length acc + List.length (filter isinstance_dict rows).
Proof.
  induction rows as [|d rows IH]; simpl; intros acc out H.
  - injection H as <-. lia.
  - destruct d; simpl; try (now apply IH).
    destruct (iterate _) as [cells|e]; simpl in H; [|discriminate].
    destruct (cell_values cells) as [values|e]; simpl in H; [|discriminate].
    destruct (1 <? List.length values)%nat.
    + apply IH in H. rewrite length_app in H. simpl in H. lia.
    + apply IH in H. lia.
Qed.

(** X9: the table [process_data] returns never has more rows than the input
    has dictionary entries. *)
Theorem process_data_never_adds_rows (rows : list pyval) (out : list (list pyval)) :
  process_data (PList rows) = Return out ->
  List.length out <= List.length (filter isinstance_dict rows)
  /\ List.length out <= List.length rows.
Proof.
  unfold process_data. simpl. intros H.
  apply process_rows_size in H. simpl in H.
  split; [exact H|].
  pose proof (filter_length_le isinstance_dict rows). lia.
Qed.

Lemma process_data_never_adds_rows_example :
  List.length [[PStr "a"; PStr "b"]] <= 1 /\ List.length [[PStr "a"; PStr "b"]] <= 3.
Proof.
  exact (process_data_never_adds_rows
           [PNone; text_row ["a"; "b"]; PStr "x"] [[PStr "a"; PStr "b"]] eq_refl).
Defined.

(** ** More on runs of [status_query] *)

Lemma surfaced_wrapped {A} (e : pyexc) :
  issubclass (exc_cls e) Exception = true ->
  @surfaced A e = Raise (wrap_query_error e).
Proof. unfold surfaced, caught. rewrite caught_is_Exception. now intros ->. Qed.

Lemma surfaced_unwrapped {A} (e : pyexc) :
  issubclass (exc_cls e) Exception = false ->
  @surfaced A e = Raise e.
Proof. unfold surfaced, caught. rewrite caught_is_Exception. now intros ->. Qed.

Lemma run_interrupted (self : AthenaConnector) (query qid : pyval) (k fuel : nat)
  (e : pyexc) :
  submitted self query = Return qid ->
  (forall i, i < k -> still_running (__client self) qid i) ->
  observed (__client self) qid k = Raise e ->
  k < fuel ->
  status_query fuel self query [] = Some (surfaced e, interrupted_run self query qid k).
Proof.
  intros Hsub Hrun Hobs Hfuel.
  rewrite status_query_run, Hsub.
  now rewrite (loop_raises _ qid k e fuel [submission self query] 0 eq_refl Hfuel Hrun Hobs).
Qed.

(** X10: an answer of the service that lacks the key the code subscripts ends
    the run with the wrapped [KeyError] at that point: no polling after a
    submission without a handle, no fetch after a status without
    ["QueryExecution"], no flattening of an answer without ["ResultSet"]. *)
Theorem missing_key_ends_the_run (self : AthenaConnector) (query : pyval) :
  (forall entries fuel,
     start_query_execution (__client self) query (__database self) (staging_uri self)
     = Return (PDict entries) ->
     assoc "QueryExecutionId" entries = None ->
     status_query fuel self query []
     = Some (Raise (wrap_query_error (PyExc KeyError "'QueryExecutionId'" None)),
             [submission self query]))
  /\ (forall qid k fuel entries,
        submitted self query = Return qid ->
        (forall i, i < k -> still_running (__client self) qid i) ->
        get_query_execution (__client self) k qid = Return (PDict entries) ->
        assoc "QueryExecution" entries = None ->
        k < fuel ->
        status_query fuel self query []
        = Some (Raise (wrap_query_error (PyExc KeyError "'QueryExecution'" None)),
                interrupted_run self query qid k))
  /\ (forall qid k fuel entries,
        submitted self query = Return qid ->
        (forall i, i < k -> still_running (__client self) qid i) ->
        reaches_terminal (__client self) qid k ->
        get_query_results (__client self) qid = Return (PDict entries) ->
        assoc "ResultSet" entries = None ->
        k < fuel ->
        status_query fuel self query []
        = Some (Raise (wrap_query_error (PyExc KeyError "'ResultSet'" None)),
                completed_run self query qid k)).
Proof.
  split; [|split].
  - intros entries fuel Hstart Hmissing.
    rewrite status_query_run. unfold submitted. rewrite Hstart.
    cbn [obind getitem]. rewrite Hmissing. now rewrite surfaced_wrapped.
  - intros qid k fuel entries Hsub Hrun Hpoll Hmissing Hfuel.
    rewrite (run_interrupted self query qid k fuel
               (PyExc KeyError "'QueryExecution'" None) Hsub Hrun);
      [now rewrite surfaced_wrapped | | exact Hfuel].
    unfold observed, response_state. rewrite Hpoll.
    cbn [obind getitem]. now rewrite Hmissing.
  - intros qid k fuel entries Hsub Hrun Hterm Hfetch Hmissing Hfuel.
    rewrite (run_completes self query qid k fuel); auto.
    unfold fetched, response_rows. rewrite Hfetch.
    cbn [obind getitem]. rewrite Hmissing. cbn [obind guarded].
    now rewrite surfaced_wrapped.
Qed.

(** X11: whatever goes wrong in a run, the caller sees either the wrapper
    [Exception("Error While Running Query: ...")] around an
    [Exception]-derived cause, or an exception that does not derive from
    [Exception], untouched. *)
Theorem status_query_raises_only_the_wrapper
  (fuel : nat) (self : AthenaConnector) (query : pyval) (e : pyexc) (tr : trace) :
  status_query fuel self query [] = Some (Raise e, tr) ->
  (exists cause,
     e = wrap_query_error cause /\ issubclass (exc_cls cause) Exception = true)
  \/ issubclass (exc_cls e) Exception = false.
Proof.
  assert (Hsurf : forall cause,
            @surfaced (list (list pyval)) cause = Raise e ->
            (exists cause0,
               e = wrap_query_error cause0 /\ issubclass (exc_cls cause0) Exception = true)
            \/ issubclass (exc_cls e) Exception = false).
  { intros cause H.
    destruct (issubclass (exc_cls cause) Exception) eqn:Hc.
    - rewrite (surfaced_wrapped _ Hc) in H. injection H as <-. left. now exists cause.
    - rewrite (surfaced_unwrapped _ Hc) in H. injection H as <-. now right. }
  intros H. rewrite status_query_run in H.
  destruct (submitted self query) as [qid|e0].
  - destruct (while_true fuel _ _) as [[[[]|e0] tr1]|]; [| |discriminate H].
    + injection H as H _. unfold guarded in H.
      destruct (fetched _ qid) as [out|e0]; [discriminate H | now apply (Hsurf e0)].
    + injection H as H _. now apply (Hsurf e0).
  - injection H as H _. now apply (Hsurf e0).
Qed.

Lemma interrupt_passes_through :
  (exists cause,
     PyExc KeyboardInterrupt "" None = wrap_query_error cause
     /\ issubclass (exc_cls cause) Exception = true)
  \/ issubclass (exc_cls (PyExc KeyboardInterrupt "" None)) Exception = false.
Proof.
  exact (status_query_raises_only_the_wrapper 1
           (connector (failing_poll 0 (PyExc KeyboardInterrupt "" None)))
           (PStr "SELECT 1") (PyExc KeyboardInterrupt "" None) _ eq_refl).
Defined.

(** The three shapes of a finished run. *)
Lemma run_shapes (fuel : nat) (self : AthenaConnector) (query : pyval)
  (res : outcome (list (list pyval))) (tr : trace) :
  status_query fuel self query [] = Some (res, tr) ->
  (tr = [submission self query] /\ exists e, submitted self query = Raise e)
  \/ exists qid n,
       submitted self query = Return qid
       /\ (tr = interrupted_run self query qid n \/ tr = completed_run self query qid n).
Proof.
  intros H. rewrite status_query_run in H.
  destruct (submitted self query) as [qid|e] eqn:Hsub.
  - right.
    destruct (while_true fuel _ _) as [[[[]|e] tr1]|] eqn:Hloop; [| |discriminate H];
      apply (loop_ends _ _ _ _ 0) in Hloop as (n & _ & -> & _); try reflexivity;
      injection H as _ <-; exists qid, n; (split; [reflexivity|]).
    + right. unfold completed_run, closing. simpl. now rewrite <- app_assoc.
    + left. reflexivity.
  - left. injection H as _ <-. split; [reflexivity | now exists e].
Qed.

Lemma waiting_has_no_submission (c : client) (qid : pyval) (n : nat) :
  forall from, filter is_submission (waiting c qid from n) = [].
Proof. induction n as [|n IH]; intros from; simpl; [reflexivity | apply IH]. Qed.

Lemma waiting_handles (c : client) (qid : pyval) (n : nat) :
  forall from ev h,
    In ev (waiting c qid from n) -> handle_of ev = Some h -> h = qid.
Proof.
  induction n as [|n IH]; intros from ev h Hin Hh; simpl in Hin; [contradiction|].
  destruct Hin as [<-|[<-|[<-|Hin]]]; try discriminate Hh.
  - now injection Hh as <-.
  - exact (IH _ _ _ Hin Hh).
Qed.

(** X12: every finished run starts with its one submission and never submits
    again; it sleeps 5 after every status call but the last; and every status
    call and the fetch carry the handle that submission returned. *)
Theorem every_run_submits_once
  (fuel : nat) (self : AthenaConnector) (query : pyval)
  (res : outcome (list (list pyval))) (tr : trace) :
  status_query fuel self query [] = Some (res, tr) ->
  hd_error tr = Some (submission self query)
  /\ List.length (filter is_submission tr) = 1
  /\ sleeps_of tr = repeat 5%Z (pred (polls tr))
  /\ (forall ev h,
        In ev tr -> handle_of ev = Some h -> submitted self query = Return h).
Proof.
  intros H.
  apply run_shapes in H as [(-> & _) | (qid & n & Hsub & [-> | ->])].
  - repeat split. intros ev h [<-|[]] Hh. discriminate Hh.
  - unfold interrupted_run.
    change (submission self query :: ?w ++ ?r)%list
      with ([submission self query] ++ w ++ r)%list.
    repeat split.
    + rewrite !filter_app, waiting_has_no_submission. reflexivity.
    + rewrite !polls_app, !sleeps_app, polls_waiting, sleeps_waiting.
      unfold polls. simpl. rewrite app_nil_r, Nat.add_1_r. reflexivity.
    + intros ev h Hin Hh. rewrite Hsub. f_equal. symmetry.
      apply in_app_or in Hin as [[<-|[]]|Hin]; [discriminate Hh|].
      apply in_app_or in Hin as [Hin|[<-|[]]].
      * exact (waiting_handles _ _ _ _ _ _ Hin Hh).
      * now injection Hh as <-.
  - destruct (completed_run_counts self query qid n) as (Hp & _ & Hs).
    rewrite Hp, Hs. unfold completed_run.
    change (submission self query :: ?w ++ ?r)%list
      with ([submission self query] ++ w ++ r)%list.
    repeat split.
    + rewrite !filter_app, waiting_has_no_submission. reflexivity.
    + intros ev h Hin Hh. rewrite Hsub. f_equal. symmetry.
      apply in_app_or in Hin as [[<-|[]]|Hin]; [discriminate Hh|].
      apply in_app_or in Hin as [Hin|[<-|[<-|[<-|[]]]]]; try discriminate Hh.
      * exact (waiting_handles _ _ _ _ _ _ Hin Hh).
      * now injection Hh as <-.
      * now injection Hh as <-.
Qed.

Lemma every_run_submits_once_example :
  List.length
    (filter is_submission
       [ StartQueryExecution (PStr "SELECT 1") (PStr "testing")
           "s3://bhupenderhere/athena_query_results/";
         GetQueryExecution (PStr "h1");
         Ic "Query execution is still in progress. Current state: QUEUED";
         Sleep 5;
         GetQueryExecution (PStr "h1");
         Ic "Query execution completed with state: SUCCEEDED";
         GetQueryResults (PStr "h1") ]) = 1.
Proof.
  exact (proj1 (proj2 (every_run_submits_once 2
           (connector (scripted ["QUEUED"] "SUCCEEDED" [])) (PStr "SELECT 1")
           (Return []) _ eq_refl))).
Defined.

(** ** The one-shot read operations *)

Lemma subscript_each_all (key : string) (items values : list pyval) :
  Forall2 (fun item v => getitem item key = Return v) items values ->
  subscript_each key items = Return values.
Proof.
  induction 1 as [|item v items values Hitem _ IH]; simpl; [reflexivity|].
  now rewrite Hitem, IH.
Qed.

Lemma subscript_each_stop (key : string) (before after : list pyval) (d : pyval)
  (e : pyexc) :
  Forall (fun item => exists v, getitem item key = Return v) before ->
  getitem d key = Raise e ->
  subscript_each key (before ++ d :: after) = Raise e.
Proof.
  intros Hbefore Hd.
  induction Hbefore as [|item before (v & Hitem) _ IH]; simpl.
  - now rewrite Hd.
  - now rewrite Hitem, IH.
Qed.

Lemma rewrapped_raise {A} (prefix : string) (e : pyexc) :
  issubclass (exc_cls e) Exception = true ->
  @rewrapped A prefix (Raise e) = Raise (PyExc Exception (prefix ++ exc_text e) (Some e)).
Proof. intros H. unfold rewrapped. now rewrite caught_is_Exception, H. Qed.

(** X13: [workgroups] and [data_catalogs] return the ["Name"] (the
    ["CatalogName"]) of every entry the service lists, one per entry and in
    the service's order. *)
Theorem names_are_listed_in_service_order (api : catalog) (response : pyval)
  (items names : list pyval) :
  (list_work_groups api = Return response ->
   getitem response "WorkGroups" = Return (PList items) ->
   Forall2 (fun item name => getitem item "Name" = Return name) items names ->
   workgroups api = Return (PList names))
  /\ (list_data_catalogs api = Return response ->
      getitem response "DataCatalogsSummary" = Return (PList items) ->
      Forall2 (fun item name => getitem item "CatalogName" = Return name) items names ->
      data_catalogs api = Return (PList names)).
Proof.
  split; intros Hcall Hlist Hnames.
  - unfold workgroups. rewrite Hcall. cbn [obind]. rewrite Hlist. cbn [obind iterate].
    now rewrite (subscript_each_all _ _ _ Hnames).
  - unfold data_catalogs. rewrite Hcall. cbn [obind]. rewrite Hlist. cbn [obind iterate].
    now rewrite (subscript_each_all _ _ _ Hnames).
Qed.

Lemma two_workgroups_in_order :
  workgroups (canned_catalog [named "Name" "primary"; named "Name" "analytics"] [])
  = Return (PList [PStr "primary"; PStr "analytics"]).
Proof.
  refine (proj1 (names_are_listed_in_service_order
            (canned_catalog [named "Name" "primary"; named "Name" "analytics"] [])
            _ _ [PStr "primary"; PStr "analytics"]) eq_refl eq_refl _).
  repeat constructor.
Defined.

(** X14: a failure of the listing call is wrapped with the operation's own
    prefix, and one entry without its name makes the whole property raise the
    wrapped [KeyError]: no partial list comes back. *)
Theorem listing_failures_are_wrapped (api : catalog) :
  (forall e,
     issubclass (exc_cls e) Exception = true ->
     list_work_groups api = Raise e ->
     workgroups api
     = Raise (PyExc Exception ("Error Getting Workgroups: " ++ exc_text e) (Some e)))
  /\ (forall e,
        issubclass (exc_cls e) Exception = true ->
        list_data_catalogs api = Raise e ->
        data_catalogs api
        = Raise (PyExc Exception ("Error Getting Data Catalogs: " ++ exc_text e) (Some e)))
  /\ (forall response before entries after,
        list_work_groups api = Return response ->
        getitem response "WorkGroups" = Return (PList (before ++ PDict entries :: after)) ->
        Forall (fun item => exists v, getitem item "Name" = Return v) before ->
        assoc "Name" entries = None ->
        workgroups api
        = Raise (PyExc Exception "Error Getting Workgroups: 'Name'"
                   (Some (PyExc KeyError "'Name'" None))))
  /\ (forall response before entries after,
        list_data_catalogs api = Return response ->
        getitem response "DataCatalogsSummary"
        = Return (PList (before ++ PDict entries :: after)) ->
        Forall (fun item => exists v, getitem item "CatalogName" = Return v) before ->
        assoc "CatalogName" entries = None ->
        data_catalogs api
        = Raise (PyExc Exception "Error Getting Data Catalogs: 'CatalogName'"
                   (Some (PyExc KeyError "'CatalogName'" None)))).
Proof.
  repeat split.
  - intros e Hclass Hcall. unfold workgroups. rewrite Hcall. cbn [obind].
    now apply rewrapped_raise.
  - intros e Hclass Hcall. unfold data_catalogs. rewrite Hcall. cbn [obind].
    now apply rewrapped_raise.
  - intros response before entries after Hcall Hlist Hbefore Hmissing.
    unfold workgroups. rewrite Hcall. cbn [obind]. rewrite Hlist. cbn [obind iterate].
    rewrite (subscript_each_stop "Name" before after (PDict entries)
               (PyExc KeyError "'Name'" None) Hbefore).
    + reflexivity.
    + cbn [getitem]. now rewrite Hmissing.
  - intros response before entries after Hcall Hlist Hbefore Hmissing.
    unfold data_catalogs. rewrite Hcall. cbn [obind]. rewrite Hlist. cbn [obind iterate].
    rewrite (subscript_each_stop "CatalogName" before after (PDict entries)
               (PyExc KeyError "'CatalogName'" None) Hbefore).
    + reflexivity.
    + cbn [getitem]. now rewrite Hmissing.
Qed.

(** X15: [get_saved_query] with a falsy id (None, the empty string) raises the
    wrapped "Query Id Not Provided!" whatever the service would answer; with
    a truthy id it returns the service's answer as it is, or wraps its
    failure. *)
Theorem get_saved_query_needs_an_id (api : catalog) (query_id : pyval) :
  (truthy query_id = false ->
   get_saved_query api query_id
   = Raise (PyExc Exception "Error Getting Saved Query: Query Id Not Provided!"
              (Some (PyExc ValueError "Query Id Not Provided!" None))))
  /\ (forall response,
        truthy query_id = true ->
        get_named_query api query_id = Return response ->
        get_saved_query api query_id = Return response)
  /\ (forall e,
        truthy query_id = true ->
        issubclass (exc_cls e) Exception = true ->
        get_named_query api query_id = Raise e ->
        get_saved_query api query_id
        = Raise (PyExc Exception ("Error Getting Saved Query: " ++ exc_text e) (Some e))).
Proof.
  unfold get_saved_query. repeat split.
  - now intros ->.
  - intros response -> Hcall. cbn [negb]. now rewrite Hcall.
  - intros e -> Hclass Hcall. cbn [negb]. rewrite Hcall. cbn [obind].
    now apply rewrapped_raise.
Qed.

Lemma executor_map_then_subscript (f : pyval -> outcome pyval) (key : string)
  (ids data : list pyval) :
  Forall2 (fun id d => exists response, f id = Return response
                                        /\ getitem response key = Return d) ids data ->
  exists responses,
    executor_map f ids = Return responses
    /\ subscript_each key responses = Return data.
Proof.
  induction 1 as [|id d ids data (response & Hcall & Hd) _ (responses & Hmap & Hsub)].
  - now exists [].
  - exists (response :: responses). simpl. now rewrite Hcall, Hmap, Hd, Hsub.
Qed.

Lemma saved_queries_workgroup (self : AthenaConnector) (workgroup chosen : pyval) :
  (truthy workgroup = true /\ chosen = workgroup)
  \/ (truthy workgroup = false /\ truthy (__workgroup self) = true
      /\ chosen = __workgroup self) ->
  py_or workgroup (__workgroup self) = chosen
  /\ truthy (py_or (__workgroup self) workgroup) = true.
Proof.
  unfold py_or.
  intros [(Hw & ->) | (Hw & Hc & ->)]; rewrite Hw.
  - split; [reflexivity|].
    destruct (truthy (__workgroup self)) eqn:Hc; [exact Hc | exact Hw].
  - rewrite Hc. now split.
Qed.

(** X16: [get_saved_queries] returns one ["NamedQuery"] record per listed id,
    in the order of the ids. *)
Theorem saved_queries_follow_the_ids
  (api : catalog) (self : AthenaConnector) (workgroup chosen response : pyval)
  (ids data : list pyval) :
  (truthy workgroup = true /\ chosen = workgroup)
  \/ (truthy workgroup = false /\ truthy (__workgroup self) = true
      /\ chosen = __workgroup self) ->
  list_named_queries (__client self) chosen = Return response ->
  getitem response "NamedQueryIds" = Return (PList ids) ->
  Forall2 (fun id d => exists answer, get_named_query api id = Return answer
                                      /\ getitem answer "NamedQuery" = Return d)
    ids data ->
  get_saved_queries api self workgroup = Return (PList data).
Proof.
  intros Hchoice Hcall Hids Hdata.
  apply saved_queries_workgroup in Hchoice as (Hor & Hsome).
  apply executor_map_then_subscript in Hdata as (responses & Hmap & Hsub).
  unfold get_saved_queries. rewrite Hsome, Hor, Hcall. cbn [obind].
  rewrite Hids. cbn [obind iterate]. rewrite Hmap. cbn [obind].
  now rewrite Hsub.
Qed.

Lemma three_saved_queries_in_order :
  get_saved_queries (canned_catalog [] [])
    (connector (listing [PStr "q1"; PStr "q2"; PStr "q3"])) PNone
  = Return (PList [ PDict [("NamedQueryId", PStr "q1")];
                    PDict [("NamedQueryId", PStr "q2")];
                    PDict [("NamedQueryId", PStr "q3")] ]).
Proof.
  refine (saved_queries_follow_the_ids (canned_catalog [] [])
            (connector (listing [PStr "q1"; PStr "q2"; PStr "q3"])) PNone
            (PStr "primary") _ [PStr "q1"; PStr "q2"; PStr "q3"] _
            (or_intror (conj eq_refl (conj eq_refl eq_refl))) eq_refl eq_refl _).
  repeat constructor; eexists; split; reflexivity.
Defined.

Lemma executor_map_stop (f : pyval -> outcome pyval) (before after : list pyval)
  (id : pyval) (e : pyexc) :
  Forall (fun x => exists y, f x = Return y) before ->
  f id = Raise e ->
  executor_map f (before ++ id :: after) = Raise e.
Proof.
  intros Hbefore Hid.
  induction Hbefore as [|x before (y & Hx) _ IH]; simpl.
  - now rewrite Hid.
  - now rewrite Hx, IH.
Qed.

(** X17: one id whose lookup fails, after ids whose lookups succeed, fails the
    whole of [get_saved_queries] with that failure wrapped, whatever the
    later lookups give. *)
Theorem one_failed_lookup_fails_the_batch
  (api : catalog) (self : AthenaConnector) (workgroup response id : pyval)
  (before after : list pyval) (e : pyexc) :
  truthy (py_or (__workgroup self) workgroup) = true ->
  list_named_queries (__client self) (py_or workgroup (__workgroup self))
  = Return response ->
  getitem response "NamedQueryIds" = Return (PList (before ++ id :: after)) ->
  Forall (fun x => exists y, get_named_query api x = Return y) before ->
  get_named_query api id = Raise e ->
  issubclass (exc_cls e) Exception = true ->
  get_saved_queries api self workgroup
  = Raise (PyExc Exception ("Error Getting Saved Queries: " ++ exc_text e) (Some e)).
Proof.
  intros Hsome Hcall Hids Hbefore Hid Hclass.
  unfold get_saved_queries. rewrite Hsome, Hcall. cbn [obind].
  rewrite Hids. cbn [obind iterate].
  rewrite (executor_map_stop _ before after id e Hbefore Hid). cbn [obind].
  now apply rewrapped_raise.
Qed.

Lemma a_lost_saved_query_fails_the_batch :
  get_saved_queries (catalog_without "q2")
    (connector (listing [PStr "q1"; PStr "q2"; PStr "q3"])) PNone
  = Raise (PyExc Exception
             "Error Getting Saved Queries: An error occurred (InvalidRequestException) when calling the GetNamedQuery operation: NamedQuery not found"
             (Some (PyExc ClientError
                      "An error occurred (InvalidRequestException) when calling the GetNamedQuery operation: NamedQuery not found"
                      None))).
Proof.
  refine (one_failed_lookup_fails_the_batch (catalog_without "q2")
            (connector (listing [PStr "q1"; PStr "q2"; PStr "q3"])) PNone _ (PStr "q2")
            [PStr "q1"] [PStr "q3"] _ eq_refl eq_refl eq_refl _ eq_refl eq_refl).
  repeat constructor. eexists. reflexivity.
Defined.
